(** * prox: routing and backend dispatch of an HTTP reverse proxy

    A shallow embedding of [proxy.go], the router file ([RouteBuilder],
    [Route], [buildHandler]) and the backend file ([Backend],
    [LoadBalancer], [Server], [BackendBuilder]) of the prox framework,
    together with the properties of its routing table, middleware chain
    and backends.

    Go values are embedded as follows.
    - A call either returns or panics: [GoResult].
    - A value of an interface type may be nil: [option].
    - Methods that write through the [*defaultProxy] pointer take the proxy
      value and give the updated one back, also when they panic.
    - What a handler does to its [http.ResponseWriter] (and to the upstream
      servers) is recorded as a list of [Event]s.
    - [map[string]T] is a [gmap string T]. *)

From stdpp Require Import gmap strings list fin_maps.
From Stdlib Require Import ZArith Ascii String Sorted.

Open Scope string_scope.
Open Scope list_scope.

(** ** Outcomes of Go calls *)

Inductive GoResult (A : Type) : Type :=
| Return (a : A)
| Panic (msg : string).
Arguments Return {A} a.
Arguments Panic {A} msg.

#[global] Instance GoResult_ret : MRet GoResult := fun A a => Return a.

#[global] Instance GoResult_bind : MBind GoResult := fun A B k c =>
  match c with
  | Return a => k a
  | Panic msg => Panic msg
  end.

(** The message of the run-time panic raised by a call through a nil
    interface value or a nil pointer. *)
Definition nil_dereference : string :=
  "runtime error: invalid memory address or nil pointer dereference".

(** ** net/url, net/http and net/http/httputil, as far as the proxy uses them *)

(** A parsed [*url.URL], identified by what [URL.String()] prints. *)
Record url_URL : Type := mkURL { URL_String : string }.

(** [url.Parse]: the URL, or the error's text. The parser is taken as a
    parameter by every function that calls it. *)
Definition url_Parser : Type := string -> url_URL + string.

(** The part of an [*http.Request] that routing looks at: the host of the
    [Host] header, without its port, and the path of the URL. The requests
    are those that are not CONNECT requests, carry no query, and whose URL
    has no escaped form of its own. *)
Record Request : Type := mkRequest { req_Host : string; req_Path : string }.

Inductive Event : Type :=
| Forwarded (target : string)          (* ReverseProxy sent the request to this URL *)
| Replied (status : Z) (error : string)
    (* http.Error(w, error, status), also through http.NotFound: the status,
       and the error text followed by a newline as the body *)
| Redirected (location : string)
    (* the multiplexer's redirect handler: a 3xx reply that sends the
       client to this path *)
| Entered (label : string)             (* a tracing middleware saw the request *)
| Exited (label : string).             (* a tracing middleware saw the response *)

Definition ResponseWriter : Type := list Event.

Definition StatusNotFound : Z := 404.
Definition StatusServiceUnavailable : Z := 503.

(** The method [ServeHTTP] of a non-nil [http.Handler]. *)
Definition HandlerFunc : Type := ResponseWriter -> Request -> GoResult ResponseWriter.

(** An [http.Handler] interface value; [None] is nil. *)
Definition Handler : Type := option HandlerFunc.

Definition Handler_ServeHTTP (h : Handler) : HandlerFunc :=
  match h with
  | Some f => f
  | None => fun _ _ => Panic nil_dereference
  end.

Definition http_Error (w : ResponseWriter) (error : string) (code : Z) : ResponseWriter :=
  w ++ [Replied code error].

Record ReverseProxy : Type := { target : url_URL }.

Definition NewSingleHostReverseProxy (u : url_URL) : ReverseProxy := {| target := u |}.

Definition ReverseProxy_ServeHTTP (rp : ReverseProxy) : HandlerFunc :=
  fun w _ => Return (w ++ [Forwarded (URL_String (target rp))]).

(** ** backend: servers, load balancers, backends *)

Record Server : Type := mkServer {
  URL : url_URL;
  Healthy : bool
}.

Record HealthStatus : Type := mkHealthStatus {
  hs_Healthy : bool;
  hs_LastCheck : Z;
  hs_Error : option string
}.

(** [LoadBalancer.Select], which returns a server pointer and an error,
    either of which may be nil. The value stands for the strategy in its
    current internal state. *)
Record LoadBalancer : Type := {
  Select : list Server -> Request -> option Server * option string
}.

Record simpleBackend : Type := {
  sb_name : string;
  sb_url : url_URL;
  sb_proxy : ReverseProxy
}.

Record healthChecker : Type := {
  hc_path : string;
  hc_interval : Z
  (* TODO: implement health checking logic *)
}.

Record clusterBackend : Type := {
  cb_name : string;
  servers : list Server;
  loadBalancer : option LoadBalancer;
  healthCheck : option healthChecker
}.

Definition simpleBackend_ServeHTTP (b : simpleBackend) : HandlerFunc :=
  ReverseProxy_ServeHTTP (sb_proxy b).

(** [now] is the reading of [time.Now()]. *)
Definition simpleBackend_HealthStatus (now : Z) (b : simpleBackend) : gmap string HealthStatus :=
  {[ URL_String (sb_url b) :=
       {| hs_Healthy := true; hs_LastCheck := now; hs_Error := None |} ]}.

Definition clusterBackend_ServeHTTP (b : clusterBackend) : HandlerFunc :=
  fun w r =>
    match loadBalancer b with
    | None => Panic nil_dereference
    | Some lb =>
        let '(server, err) := Select lb (servers b) r in
        match err with
        | Some _ => Return (http_Error w "No available backend" StatusServiceUnavailable)
        | None =>
            match server with
            | None => Panic nil_dereference
            | Some s => ReverseProxy_ServeHTTP (NewSingleHostReverseProxy (URL s)) w r
            end
        end
    end.

(** The loop of [clusterBackend.HealthStatus], from the [i]-th server on;
    [now i] is the reading of [time.Now()] in iteration [i]. *)
Fixpoint HealthStatus_loop (now : nat -> Z) (i : nat) (ss : list Server)
    (status : gmap string HealthStatus) : gmap string HealthStatus :=
  match ss with
  | [] => status
  | server :: rest =>
      let healthy := Healthy server in
      HealthStatus_loop now (S i) rest
        (<[ URL_String (URL server) :=
              {| hs_Healthy := healthy; hs_LastCheck := now i; hs_Error := None |} ]> status)
  end.

Definition clusterBackend_HealthStatus (now : nat -> Z) (b : clusterBackend)
    : gmap string HealthStatus :=
  HealthStatus_loop now 0 (servers b) ∅.

(** The two implementations of the [Backend] interface. *)
Inductive Backend : Type :=
| Simple (b : simpleBackend)
| Cluster (b : clusterBackend).

Definition Backend_ServeHTTP (b : Backend) : HandlerFunc :=
  match b with
  | Simple sb => simpleBackend_ServeHTTP sb
  | Cluster cb => clusterBackend_ServeHTTP cb
  end.

Definition Backend_HealthStatus (now : nat -> Z) (b : Backend) : gmap string HealthStatus :=
  match b with
  | Simple sb => simpleBackend_HealthStatus (now 0%nat) sb
  | Cluster cb => clusterBackend_HealthStatus now cb
  end.

(** ** net/http's ServeMux

    [buildHandler] registers every route on an [http.ServeMux] and the
    server dispatches through it. The multiplexer is part of the Go library
    and its pattern language has grown: since Go 1.22 a pattern may start
    with a method and may hold wildcard segments in braces, and a pattern
    that does not parse, or that conflicts with another one, panics. The
    embedding below is the multiplexer on the patterns on which all its
    versions agree, the plain ones ([plain_pattern] below): a path that
    begins with a slash, is clean, and has no space, tab, brace or percent
    sign.
    - [ServeMux_Handle] panics on an empty pattern, a nil handler and a
      pattern registered twice. The library panics in these cases in every
      version, and in further ones on patterns that are not plain; so a
      panic of the embedding is a panic of the program, and what is proved
      of a handler that the embedding builds holds of one the program
      builds. That the handler is built at all is stated for plain patterns
      only.
    - [ServeMux_match] prefers an exact match and takes the longest subtree
      pattern otherwise; results of dispatch are stated for plain patterns
      only.
    - [ServeMux_Handler] redirects a request for a registered subtree root
      written without its trailing slash, and a request whose path is not
      clean. The status of the redirect is not recorded.
    Requests are taken with their host stripped of its port, and with a URL
    that has no escaped form of its own. *)

Record muxEntry : Type := { me_h : HandlerFunc; me_pattern : string }.

Record ServeMux : Type := {
  mux_m : gmap string muxEntry;
  mux_es : list muxEntry;   (* subtree entries, longest pattern first *)
  mux_hosts : bool          (* whether any pattern contains a host name *)
}.

Definition NewServeMux : ServeMux :=
  {| mux_m := ∅; mux_es := []; mux_hosts := false |}.

Definition last_is_slash (s : string) : bool :=
  match String.get (String.length s - 1) s with
  | Some c => bool_decide (c = "/"%char)
  | None => false
  end.

Definition first_is_slash (s : string) : bool :=
  match String.get 0 s with
  | Some c => bool_decide (c = "/"%char)
  | None => false
  end.

(** Insertion before the first entry with a shorter pattern. *)
Fixpoint appendSorted (es : list muxEntry) (e : muxEntry) : list muxEntry :=
  match es with
  | [] => [e]
  | x :: rest =>
      if (String.length (me_pattern x) <? String.length (me_pattern e))%nat
      then e :: x :: rest
      else x :: appendSorted rest e
  end.

Definition ServeMux_Handle (mux : ServeMux) (pat : string) (h : Handler) : GoResult ServeMux :=
  if bool_decide (pat = "") then Panic "http: invalid pattern"
  else match h with
  | None => Panic "http: nil handler"
  | Some f =>
      match mux_m mux !! pat with
      | Some _ => Panic ("http: multiple registrations for " +:+ pat)
      | None =>
          let e := {| me_h := f; me_pattern := pat |} in
          Return {| mux_m := <[ pat := e ]> (mux_m mux);
                    mux_es := if last_is_slash pat then appendSorted (mux_es mux) e
                              else mux_es mux;
                    mux_hosts := mux_hosts mux || negb (first_is_slash pat) |}
      end
  end.

Definition ServeMux_match (mux : ServeMux) (path : string) : option muxEntry :=
  match mux_m mux !! path with
  | Some v => Some v
  | None => List.find (fun e => String.prefix (me_pattern e) path) (mux_es mux)
  end.

Definition NotFoundHandler : HandlerFunc :=
  fun w _ => Return (http_Error w "404 page not found" StatusNotFound).

Definition RedirectHandler (url : string) : HandlerFunc :=
  fun w _ => Return (w ++ [Redirected url]).

(** The elements of a path: the strings between its slashes, with [cur] the
    element being read. *)
Fixpoint path_elements (s : string) (cur : string) : list string :=
  match s with
  | EmptyString => [cur]
  | String c rest =>
      if bool_decide (c = "/"%char) then cur :: path_elements rest ""
      else path_elements rest (cur +:+ String c "")
  end.

(** One element of a rooted path in [path.Clean]: empty elements and [.]
    are dropped, [..] takes the element before it away (and is dropped at
    the root), with [kept] the elements kept so far. *)
Definition clean_element (kept : list string) (elem : string) : list string :=
  if bool_decide (elem = "") then kept
  else if bool_decide (elem = ".") then kept
  else if bool_decide (elem = "..") then removelast kept
  else kept ++ [elem].

Fixpoint join_elements (elems : list string) : string :=
  match elems with
  | [] => ""
  | e :: rest => "/" +:+ e +:+ join_elements rest
  end.

(** [path.Clean] on a path that begins with a slash. *)
Definition path_Clean (p : string) : string :=
  match fold_left clean_element (path_elements p "") [] with
  | [] => "/"
  | kept => join_elements kept
  end.

(** net/http's [cleanPath]: the canonical path, with the trailing slash
    kept. *)
Definition cleanPath (p : string) : string :=
  if bool_decide (p = "") then "/"
  else
    let p := if first_is_slash p then p else "/" +:+ p in
    let np := path_Clean p in
    if last_is_slash p && negb (bool_decide (np = "/")) then np +:+ "/" else np.

Definition ServeMux_handler (mux : ServeMux) (host path : string) : HandlerFunc * string :=
  let hostMatch := if mux_hosts mux then ServeMux_match mux (host +:+ path) else None in
  let found := match hostMatch with
               | Some e => Some e
               | None => ServeMux_match mux path
               end in
  match found with
  | Some e => (me_h e, me_pattern e)
  | None => (NotFoundHandler, "")
  end.

Definition shouldRedirect (mux : ServeMux) (host path : string) : bool :=
  if bool_decide (is_Some (mux_m mux !! path)) then false
  else if bool_decide (is_Some (mux_m mux !! (host +:+ path))) then false
  else if bool_decide (String.length path = 0) then false
  else if bool_decide (is_Some (mux_m mux !! (path +:+ "/"))) then negb (last_is_slash path)
  else if bool_decide (is_Some (mux_m mux !! (host +:+ path +:+ "/")))
       then negb (last_is_slash path)
  else false.

(** [ServeMux.Handler]: the handler for the request and the pattern that
    matched. *)
Definition ServeMux_Handler (mux : ServeMux) (r : Request) : HandlerFunc * string :=
  let path := cleanPath (req_Path r) in
  if shouldRedirect mux (req_Host r) path
  then (RedirectHandler (path +:+ "/"), path +:+ "/")
  else if bool_decide (path = req_Path r)
  then ServeMux_handler mux (req_Host r) (req_Path r)
  else (RedirectHandler path, snd (ServeMux_handler mux (req_Host r) path)).

Definition ServeMux_ServeHTTP (mux : ServeMux) : HandlerFunc :=
  fun w r => fst (ServeMux_Handler mux r) w r.

(** ** proxy, routes and builders *)

Definition Middleware : Type := Handler -> Handler.

Record Route : Type := mkRoute {
  pattern : string;
  backend : option Backend;
  middlewares : list Middleware;
  handler : Handler
}.

Record http_Server : Type := { Addr : string; srv_Handler : ServeMux }.

Record defaultProxy : Type := mkProxy {
  p_middlewares : list Middleware;
  routes : list Route;
  backends : gmap string Backend;
  server : option http_Server
}.

Record defaultRouteBuilder : Type := {
  rb_pattern : string;
  rb_middlewares : list Middleware
}.

Record defaultBackendBuilder : Type := {
  bb_name : string;
  bb_servers : list string;
  bb_loadBalancer : option LoadBalancer;
  bb_healthPath : string;
  bb_healthInterval : Z
}.

(** [New()], without options. *)
Definition New : defaultProxy :=
  {| p_middlewares := []; routes := []; backends := ∅; server := None |}.

Definition defaultProxy_Use (p : defaultProxy) (mws : list Middleware) : defaultProxy :=
  {| p_middlewares := p_middlewares p ++ mws; routes := routes p;
     backends := backends p; server := server p |}.

Definition defaultProxy_Route (pat : string) : defaultRouteBuilder :=
  {| rb_pattern := pat; rb_middlewares := [] |}.

Definition defaultProxy_Backend (name : string) : defaultBackendBuilder :=
  {| bb_name := name; bb_servers := []; bb_loadBalancer := None;
     bb_healthPath := ""; bb_healthInterval := 0 |}.

Definition defaultRouteBuilder_Use (rb : defaultRouteBuilder) (mws : list Middleware)
    : defaultRouteBuilder :=
  {| rb_pattern := rb_pattern rb; rb_middlewares := rb_middlewares rb ++ mws |}.

Definition add_route (p : defaultProxy) (route : Route) : defaultProxy :=
  {| p_middlewares := p_middlewares p; routes := routes p ++ [route];
     backends := backends p; server := server p |}.

(** [To] takes a [Backend] interface value, which may be nil. *)
Definition To (rb : defaultRouteBuilder) (b : option Backend) (p : defaultProxy)
    : Route * defaultProxy :=
  let route := {| pattern := rb_pattern rb; backend := b;
                  middlewares := rb_middlewares rb; handler := None |} in
  (route, add_route p route).

Definition ToHandler (rb : defaultRouteBuilder) (h : Handler) (p : defaultProxy)
    : Route * defaultProxy :=
  let route := {| pattern := rb_pattern rb; backend := None;
                  middlewares := rb_middlewares rb; handler := h |} in
  (route, add_route p route).

Definition createSimpleBackend (parse : url_Parser) (name urlStr : string) : GoResult Backend :=
  match parse urlStr with
  | inr err => Panic ("invalid URL: " +:+ err)
  | inl u => Return (Simple {| sb_name := name; sb_url := u;
                               sb_proxy := NewSingleHostReverseProxy u |})
  end.

Definition ToURL (parse : url_Parser) (rb : defaultRouteBuilder) (urlStr : string)
    (p : defaultProxy) : GoResult Route * defaultProxy :=
  match createSimpleBackend parse "" urlStr with
  | Panic msg => (Panic msg, p)
  | Return b => let '(route, p') := To rb (Some b) p in (Return route, p')
  end.

Definition AddServers (bb : defaultBackendBuilder) (urls : list string) : defaultBackendBuilder :=
  {| bb_name := bb_name bb; bb_servers := bb_servers bb ++ urls;
     bb_loadBalancer := bb_loadBalancer bb; bb_healthPath := bb_healthPath bb;
     bb_healthInterval := bb_healthInterval bb |}.

Definition WithLoadBalancer (bb : defaultBackendBuilder) (lb : option LoadBalancer)
    : defaultBackendBuilder :=
  {| bb_name := bb_name bb; bb_servers := bb_servers bb;
     bb_loadBalancer := lb; bb_healthPath := bb_healthPath bb;
     bb_healthInterval := bb_healthInterval bb |}.

Definition WithHealthCheck (bb : defaultBackendBuilder) (path : string) (interval : Z)
    : defaultBackendBuilder :=
  {| bb_name := bb_name bb; bb_servers := bb_servers bb;
     bb_loadBalancer := bb_loadBalancer bb; bb_healthPath := path;
     bb_healthInterval := interval |}.

Definition register_backend (p : defaultProxy) (name : string) (b : Backend) : defaultProxy :=
  {| p_middlewares := p_middlewares p; routes := routes p;
     backends := <[ name := b ]> (backends p); server := server p |}.

(** The loop of [Build] over the configured URLs, with the servers made so
    far. *)
Fixpoint Build_servers (parse : url_Parser) (urls : list string) (acc : list Server)
    : GoResult (list Server) :=
  match urls with
  | [] => Return acc
  | serverURL :: rest =>
      match parse serverURL with
      | inr err => Panic ("invalid server URL: " +:+ err)
      | inl u => Build_servers parse rest (acc ++ [ {| URL := u; Healthy := true |} ])
      end
  end.

Definition Build (parse : url_Parser) (bb : defaultBackendBuilder) (p : defaultProxy)
    : GoResult Backend * defaultProxy :=
  match bb_servers bb with
  | [] => (Panic "no servers defined for backend", p)
  | [only] =>
      match parse only with
      | inr err => (Panic ("invalid server URL: " +:+ err), p)
      | inl u =>
          let b := Simple {| sb_name := bb_name bb; sb_url := u;
                             sb_proxy := NewSingleHostReverseProxy u |} in
          (Return b, register_backend p (bb_name bb) b)
      end
  | _ =>
      match Build_servers parse (bb_servers bb) [] with
      | Panic msg => (Panic msg, p)
      | Return ss =>
          let b := Cluster {| cb_name := bb_name bb; servers := ss;
                              loadBalancer := bb_loadBalancer bb;
                              healthCheck :=
                                if bool_decide (bb_healthPath bb = "") then None
                                else Some {| hc_path := bb_healthPath bb;
                                             hc_interval := bb_healthInterval bb |} |} in
          (Return b, register_backend p (bb_name bb) b)
      end
  end.

(** [for i := len(mws) - 1; i >= 0; i-- { handler = mws[i](handler) }], with
    [n] iterations left, the next one at index [n - 1]. *)
Fixpoint apply_middlewares (mws : list Middleware) (n : nat) (h : Handler) : Handler :=
  match n with
  | O => h
  | S i =>
      match mws !! i with
      | Some mw => apply_middlewares mws i (mw h)
      | None => apply_middlewares mws i h   (* not reached: i < len(mws) *)
      end
  end.

(** The handler that the middlewares of a route wrap: the route's own
    handler, or else its backend. *)
Definition route_target (route : Route) : Handler :=
  let h := handler route in
  match h, backend route with
  | None, Some b => Some (Backend_ServeHTTP b)
  | _, _ => h
  end.

(** The body of [buildHandler]'s loop up to the call of [mux.Handle]. *)
Definition route_handler (globals : list Middleware) (route : Route) : Handler :=
  let h := route_target route in
  let h := apply_middlewares (middlewares route) (List.length (middlewares route)) h in
  apply_middlewares globals (List.length globals) h.

Fixpoint buildHandler_loop (globals : list Middleware) (rs : list Route) (mux : ServeMux)
    : GoResult ServeMux :=
  match rs with
  | [] => Return mux
  | route :: rest =>
      mux' ← ServeMux_Handle mux (pattern route) (route_handler globals route);
      buildHandler_loop globals rest mux'
  end.

Definition buildHandler (p : defaultProxy) : GoResult ServeMux :=
  buildHandler_loop (p_middlewares p) (routes p) NewServeMux.

(** [ListenAndServe] up to the point where the server starts to accept
    connections. *)
Definition ListenAndServe (addr : string) (p : defaultProxy) : GoResult unit * defaultProxy :=
  match buildHandler p with
  | Panic msg => (Panic msg, p)
  | Return mux =>
      (Return tt,
       {| p_middlewares := p_middlewares p; routes := routes p; backends := backends p;
          server := Some {| Addr := addr; srv_Handler := mux |} |})
  end.

(** One request arriving at the running server. *)
Definition dispatch (p : defaultProxy) (r : Request) : option (HandlerFunc * string) :=
  match server p with
  | Some srv => Some (ServeMux_Handler (srv_Handler srv) r)
  | None => None
  end.

(** The key of a server in the map of [HealthStatus]. *)
Definition server_key (s : Server) : string := URL_String (URL s).

(** The entry that [HealthStatus] writes for a server at time [t]. *)
Definition entry_of (s : Server) (t : Z) : HealthStatus :=
  {| hs_Healthy := Healthy s; hs_LastCheck := t; hs_Error := None |}.

(** Whether the running server answers a request with the multiplexer's
    redirect to the subtree root. *)
Definition redirects (p : defaultProxy) (r : Request) : bool :=
  match server p with
  | Some srv => shouldRedirect (srv_Handler srv) (req_Host r) (cleanPath (req_Path r))
  | None => false
  end.

(** The patterns on which every version of the multiplexer agrees: a clean
    path that begins with a slash and holds no space or tab (which would
    end a method), no brace (a wildcard) and no percent sign (an escape). *)
Definition plain_char (c : ascii) : bool :=
  negb (bool_decide (c = " "%char) || bool_decide (c = ascii_of_nat 9)
        || bool_decide (c = "{"%char) || bool_decide (c = "}"%char)
        || bool_decide (c = "%"%char)).

Definition plain_pattern (pat : string) : bool :=
  first_is_slash pat && forallb plain_char (list_ascii_of_string pat)
  && bool_decide (cleanPath pat = pat).

(** The requests on which every version of the multiplexer agrees for plain
    patterns: the path is clean, so that the request is not redirected to
    its clean form, and the host is a host name, not a path. *)
Definition plain_request (r : Request) : bool :=
  bool_decide (cleanPath (req_Path r) = req_Path r) && negb (first_is_slash (req_Host r)).

(** The nesting [m1 (m2 (... (mn h)))] of a list of middlewares around a
    handler: the head of the list is the outermost wrapper. *)
Definition chain (mws : list Middleware) (h : Handler) : Handler :=
  foldr (fun mw inner => mw inner) h mws.

(** When a registered pattern applies to a request path: a pattern that
    ends in a slash applies to every path it is a prefix of, any other
    pattern to the one path it spells. *)
Definition pattern_matches (pat path : string) : bool :=
  bool_decide (pat = path) || (last_is_slash pat && String.prefix pat path).

(** The order of [mux_es]: no entry is followed by a longer one. *)
Definition not_shorter (a b : muxEntry) : Prop :=
  (String.length (me_pattern b) <= String.length (me_pattern a))%nat.

(** What holds of a multiplexer on which the routes [rs] have been
    registered by [buildHandler] with the global middlewares [globals]. *)
Record mux_built (globals : list Middleware) (rs : list Route) (mux : ServeMux) : Prop := {
  built_entries : forall (pat : string) e, mux_m mux !! pat = Some e ->
    me_pattern e = pat /\
    exists r, r ∈ rs /\ pattern r = pat /\ route_handler globals r = Some (me_h e);
  built_routes : forall r, r ∈ rs -> is_Some (mux_m mux !! pattern r);
  built_subtrees : forall e, e ∈ mux_es mux <->
    mux_m mux !! me_pattern e = Some e /\ last_is_slash (me_pattern e) = true;
  built_sorted : StronglySorted not_shorter (mux_es mux);
  built_hosts : mux_hosts mux = existsb (fun r => negb (first_is_slash (pattern r))) rs
}.


(** ** What the specification says about a cluster's candidate set *)

(** The health-filtered candidate set of the specification: the servers
    whose health flag is set. (The code has no third, recovering, state.) *)
Definition candidates (ss : list Server) : list Server := List.filter Healthy ss.

(** What [clusterBackend.ServeHTTP] does with the result of [Select]. *)
Definition after_Select (sel : option Server * option string) : HandlerFunc :=
  fun w r =>
    match sel with
    | (_, Some _) => Return (http_Error w "No available backend" StatusServiceUnavailable)
    | (Some s, None) => ReverseProxy_ServeHTTP (NewSingleHostReverseProxy (URL s)) w r
    | (None, None) => Panic nil_dereference
    end.

(** [Cluster.Serve] as the specification words it: [Select] runs over the
    healthy subset only. *)
Definition Serve_over_candidates (b : clusterBackend) : HandlerFunc :=
  fun w r =>
    match loadBalancer b with
    | None => Panic nil_dereference
    | Some lb => after_Select (Select lb (candidates (servers b)) r) w r
    end.

(** A load balancer keeps the contract of the [LoadBalancer] interface when
    it answers with a healthy member of the list it was given, or with an
    error, and with an error when no member is healthy. *)
Definition selects_healthy (lb : LoadBalancer) : Prop :=
  forall ss r s, Select lb ss r = (Some s, None) -> s ∈ ss /\ Healthy s = true.

Definition errors_without_healthy (lb : LoadBalancer) : Prop :=
  forall ss r, candidates ss = [] -> snd (Select lb ss r) <> None.

(** ** Sample values *)

(** Two strategies a user of the framework may plug in: the first one takes
    the head of the list whatever its health, the second one the first
    healthy server. *)
Definition pickFirst : LoadBalancer :=
  {| Select := fun ss _ =>
       match ss with
       | s :: _ => (Some s, None)
       | [] => (None, Some "no servers")
       end |}.

Definition firstHealthy : LoadBalancer :=
  {| Select := fun ss _ =>
       match List.find Healthy ss with
       | Some s => (Some s, None)
       | None => (None, Some "no healthy servers available")
       end |}.

Definition is_control (c : ascii) : bool :=
  let n := nat_of_ascii c in (n <? 32)%nat || (n =? 127)%nat.

Fixpoint has_control (s : string) : bool :=
  match s with
  | EmptyString => false
  | String c rest => is_control c || has_control rest
  end.

(** A parser that, like [url.Parse], rejects a string with an ASCII control
    character; it takes every other string as a URL printed the same way. *)
Definition ctl_Parse : url_Parser :=
  fun s => if has_control s then inr "net/url: invalid control character in URL"
           else inl (mkURL s).

Definition s1 : Server := {| URL := mkURL "http://s1:8080"; Healthy := false |}.
Definition s2 : Server := {| URL := mkURL "http://s2:8080"; Healthy := true |}.
Definition down2 : Server := {| URL := mkURL "http://s2:8080"; Healthy := false |}.

Definition cluster_of (ss : list Server) (lb : LoadBalancer) : clusterBackend :=
  {| cb_name := "api"; servers := ss; loadBalancer := Some lb; healthCheck := None |}.

Definition req (path : string) : Request := {| req_Host := "localhost"; req_Path := path |}.

Definition api_builder : defaultBackendBuilder :=
  AddServers (defaultProxy_Backend "api") ["http://s1:8080"; "http://s2:8080"].

Definition monitored_builder : defaultBackendBuilder :=
  WithHealthCheck (WithLoadBalancer api_builder (Some firstHealthy)) "/health" 5.

Definition twin_builder : defaultBackendBuilder :=
  AddServers (defaultProxy_Backend "twins") ["http://a:1"; "http://a:1"].

Definition sampleClock : nat -> Z := fun i => (1000 + Z.of_nat i)%Z.

Definition backendX : Backend :=
  Simple {| sb_name := "x"; sb_url := mkURL "http://x:8080";
            sb_proxy := NewSingleHostReverseProxy (mkURL "http://x:8080") |}.

Definition backendY : Backend :=
  Simple {| sb_name := "y"; sb_url := mkURL "http://y:8080";
            sb_proxy := NewSingleHostReverseProxy (mkURL "http://y:8080") |}.

(** [proxy.Route("/api").To(x); proxy.Route("/api/users").To(y)] on a new
    proxy, and the same proxy once [ListenAndServe] has built its handler. *)
Definition api_proxy : defaultProxy :=
  snd (To (defaultProxy_Route "/api/users") (Some backendY)
         (snd (To (defaultProxy_Route "/api") (Some backendX) New))).

Definition api_server : defaultProxy := snd (ListenAndServe ":3000" api_proxy).

(** The same with the subtree patterns [/api/] and [/api/users/]. *)
Definition subtree_proxy : defaultProxy :=
  snd (To (defaultProxy_Route "/api/users/") (Some backendY)
         (snd (To (defaultProxy_Route "/api/") (Some backendX) New))).

Definition subtree_server : defaultProxy := snd (ListenAndServe ":3000" subtree_proxy).

(** A middleware that marks the request on its way in and the response on
    its way out. *)
Definition tracing (label : string) : Middleware :=
  fun next => Some (fun w r =>
    w' ← Handler_ServeHTTP next (w ++ [Entered label]) r;
    Return (w' ++ [Exited label])).

(** What the running server writes for one request: the handler found by
    [dispatch], run on the request. There is no answer before
    [ListenAndServe] has set the server. *)
Definition serve (p : defaultProxy) (w : ResponseWriter) (r : Request)
    : option (GoResult ResponseWriter) :=
  match dispatch p r with
  | Some (h, _) => Some (h w r)
  | None => None
  end.

(** A middleware that answers by itself and never calls the next handler,
    as an access check does when it turns a request down. *)
Definition deny (code : Z) (body : string) : Middleware :=
  fun _ => Some (fun w _ => Return (http_Error w body code)).

(** * Properties *)

(** ** Cluster backends and load balancing *)

Lemma ServeHTTP_after_Select (b : clusterBackend) (lb : LoadBalancer) w r :
  loadBalancer b = Some lb ->
  clusterBackend_ServeHTTP b w r = after_Select (Select lb (servers b) r) w r.
Proof.
  intros Hlb. unfold clusterBackend_ServeHTTP, after_Select. rewrite Hlb.
  destruct (Select lb (servers b) r) as [[s|] [e|]]; reflexivity.
Qed.

Lemma ServeHTTP_error_503 (b : clusterBackend) (lb : LoadBalancer) w r :
  loadBalancer b = Some lb ->
  snd (Select lb (servers b) r) <> None ->
  clusterBackend_ServeHTTP b w r
  = Return (w ++ [Replied StatusServiceUnavailable "No available backend"]).
Proof.
  intros Hlb Herr. rewrite (ServeHTTP_after_Select b lb) by exact Hlb.
  destruct (Select lb (servers b) r) as [sel [e|]]; simpl in *.
  - destruct sel; reflexivity.
  - congruence.
Qed.

Lemma Return_inj {A : Type} (a b : A) : Return a = Return b -> a = b.
Proof. intros H. injection H. trivial. Qed.

Lemma firstHealthy_selects_healthy : selects_healthy firstHealthy.
Proof.
  intros ss r s. simpl. destruct (List.find Healthy ss) as [x|] eqn:Hfind.
  - intros Heq. injection Heq as ->. apply List.find_some in Hfind as [Hin Hh].
    split; [ apply list_elem_of_In; exact Hin | exact Hh ].
  - discriminate.
Qed.

Lemma firstHealthy_errors_without_healthy : errors_without_healthy firstHealthy.
Proof.
  intros ss r Hnone. simpl. destruct (List.find Healthy ss) as [x|] eqn:Hfind.
  - apply List.find_some in Hfind as [Hin Hh].
    assert (Hx : List.In x (candidates ss)) by (apply List.filter_In; auto).
    rewrite Hnone in Hx. destruct Hx.
  - simpl. discriminate.
Qed.

(** C1, as the code has it: whatever the load balancer, [ServeHTTP] hands
    [Select] the complete server list of the backend, unhealthy servers
    included, and acts on what [Select] answers. Health filtering is the
    load balancer's part: with a load balancer that only answers with
    healthy members of the list it is given, the server a request is
    forwarded to is a healthy server of the backend. *)
Theorem C1_serve_selects_over_all_servers
    (b : clusterBackend) (lb : LoadBalancer) (w : ResponseWriter) (r : Request) :
  loadBalancer b = Some lb ->
  clusterBackend_ServeHTTP b w r = after_Select (Select lb (servers b) r) w r /\
  (selects_healthy lb ->
   forall u, clusterBackend_ServeHTTP b w r = Return (w ++ [Forwarded u]) ->
     exists s, s ∈ servers b /\ Healthy s = true /\ URL_String (URL s) = u).
Proof.
  intros Hlb. split; [ apply ServeHTTP_after_Select; exact Hlb | ].
  intros Hsel u. rewrite (ServeHTTP_after_Select b lb) by exact Hlb.
  destruct (Select lb (servers b) r) as [[s|] [e|]] eqn:Hs; simpl.
  - intros H. apply Return_inj, app_inv_head in H. discriminate.
  - intros H. apply Return_inj, app_inv_head in H.
    destruct (Hsel _ _ _ Hs) as [Hin Hh]. simpl in H. injection H as Hu.
    exists s. repeat split; assumption.
  - intros H. apply Return_inj, app_inv_head in H. discriminate.
  - discriminate.
Qed.

Lemma C1_serve_selects_over_all_servers_witness :
  clusterBackend_ServeHTTP (cluster_of [s1; s2] pickFirst) [] (req "/api")
  = after_Select (Select pickFirst [s1; s2] (req "/api")) [] (req "/api") /\
  clusterBackend_ServeHTTP (cluster_of [s1; s2] firstHealthy) [] (req "/api")
  = Return [Forwarded "http://s2:8080"] /\
  exists s, s ∈ [s1; s2] /\ Healthy s = true /\ URL_String (URL s) = "http://s2:8080".
Proof.
  split.
  - exact (proj1 (C1_serve_selects_over_all_servers
                    (cluster_of [s1; s2] pickFirst) pickFirst [] (req "/api") eq_refl)).
  - destruct (C1_serve_selects_over_all_servers
                (cluster_of [s1; s2] firstHealthy) firstHealthy [] (req "/api") eq_refl)
      as [Heq Hfwd].
    split; [ exact Heq | apply (Hfwd firstHealthy_selects_healthy); reflexivity ].
Defined.

(** C1 as stated fails: with a load balancer that takes the head of the
    list, a backend whose first server is unhealthy and whose second one is
    healthy forwards to the unhealthy one, where [Select] over the healthy
    subset would have given the healthy one. *)
Lemma C1_unhealthy_server_selected :
  s2 ∈ servers (cluster_of [s1; s2] pickFirst) /\ Healthy s2 = true /\
  Healthy s1 = false /\
  clusterBackend_ServeHTTP (cluster_of [s1; s2] pickFirst) [] (req "/api")
  = Return [Forwarded (URL_String (URL s1))] /\
  Serve_over_candidates (cluster_of [s1; s2] pickFirst) [] (req "/api")
  = Return [Forwarded (URL_String (URL s2))].
Proof.
  repeat split; try reflexivity. simpl. apply list_elem_of_In. simpl. auto.
Qed.

(** C5, as the code has it: a cluster backend whose load balancer answers
    with an error when no server is healthy, as the [LoadBalancer] interface
    asks, replies to a request through [http.Error] with status 503 and the
    text "No available backend" when none of its servers is healthy. That
    reply is all that [ServeHTTP] writes: nothing is forwarded, to the
    server picked or to any other. *)
Theorem C5_no_healthy_server_503
    (b : clusterBackend) (lb : LoadBalancer) (w : ResponseWriter) (r : Request) :
  loadBalancer b = Some lb ->
  errors_without_healthy lb ->
  candidates (servers b) = [] ->
  clusterBackend_ServeHTTP b w r
  = Return (w ++ [Replied 503 "No available backend"]).
Proof.
  intros Hlb Hcontract Hnone.
  apply (ServeHTTP_error_503 b lb); [ exact Hlb | apply Hcontract; exact Hnone ].
Qed.

Lemma C5_no_healthy_server_503_witness :
  clusterBackend_ServeHTTP (cluster_of [s1; down2] firstHealthy) [] (req "/api")
  = Return [Replied 503 "No available backend"].
Proof.
  apply (C5_no_healthy_server_503 (cluster_of [s1; down2] firstHealthy) firstHealthy
           [] (req "/api")).
  - reflexivity.
  - exact firstHealthy_errors_without_healthy.
  - reflexivity.
Defined.

(** C5 as stated fails: both servers of the backend are unhealthy, its
    healthy candidate set is empty, and yet the request is forwarded, to
    the unhealthy server that the load balancer picked from the unfiltered
    list. *)
Lemma C5_forwards_to_unhealthy_server :
  candidates (servers (cluster_of [s1; down2] pickFirst)) = [] /\
  clusterBackend_ServeHTTP (cluster_of [s1; down2] pickFirst) [] (req "/api")
  = Return [Forwarded "http://s1:8080"].
Proof. split; reflexivity. Qed.

(** ** Building backends *)

Lemma Build_servers_ok (parse : url_Parser) (urls : list string) :
  Forall (fun s => exists u, parse s = inl u) urls ->
  forall acc, exists ss,
    Build_servers parse urls acc = Return (acc ++ ss) /\
    List.length ss = List.length urls /\
    Forall (fun s => Healthy s = true) ss.
Proof.
  induction 1 as [|url urls [u Hu] _ IH]; intros acc.
  - exists []. simpl. rewrite app_nil_r. auto.
  - simpl. rewrite Hu.
    destruct (IH (acc ++ [ {| URL := u; Healthy := true |} ])) as (ss & Heq & Hlen & Hall).
    exists ({| URL := u; Healthy := true |} :: ss).
    rewrite Heq, <- app_assoc. simpl. repeat split; auto.
Qed.

Lemma Build_servers_healthy (parse : url_Parser) (urls : list string) :
  forall acc ss,
    Build_servers parse urls acc = Return ss ->
    Forall (fun s => Healthy s = true) acc ->
    Forall (fun s => Healthy s = true) ss.
Proof.
  induction urls as [|url urls IH]; simpl; intros acc ss Hb Hacc.
  - injection Hb as <-. exact Hacc.
  - destruct (parse url) as [u|e]; [ | discriminate ].
    apply (IH _ _ Hb). apply Forall_app. split; [ exact Hacc | ].
    constructor; [ reflexivity | constructor ].
Qed.

Lemma Build_servers_bad (parse : url_Parser) (urls : list string) (s e : string) :
  s ∈ urls -> parse s = inr e ->
  forall acc, exists msg, Build_servers parse urls acc = Panic msg.
Proof.
  induction urls as [|url urls IH]; intros Hin Hbad acc.
  - apply elem_of_nil in Hin. destruct Hin.
  - simpl. destruct (parse url) as [u|e'] eqn:Hp.
    + apply elem_of_cons in Hin as [-> | Hin]; [ congruence | ].
      apply IH; assumption.
    + eexists. reflexivity.
Qed.

(** C9: a builder with two or more server URLs, all of which parse, and no
    load balancer set, builds a cluster backend whose load balancer is nil;
    every request served by that backend panics on the nil load balancer.
    No default strategy is put in its place. *)
Theorem C9_nil_loadBalancer_panics
    (parse : url_Parser) (bb : defaultBackendBuilder) (p : defaultProxy) :
  (2 <= List.length (bb_servers bb))%nat ->
  bb_loadBalancer bb = None ->
  Forall (fun s => exists u, parse s = inl u) (bb_servers bb) ->
  exists cb,
    fst (Build parse bb p) = Return (Cluster cb) /\
    loadBalancer cb = None /\
    List.length (servers cb) = List.length (bb_servers bb) /\
    forall w r, Backend_ServeHTTP (Cluster cb) w r = Panic nil_dereference.
Proof.
  intros Hlen Hlb Hparse. unfold Build.
  destruct (Build_servers_ok parse (bb_servers bb) Hparse []) as (ss & Heq & Hss & _).
  destruct (bb_servers bb) as [|a [|a' rest]] eqn:Hurls.
  - simpl in Hlen. lia.
  - simpl in Hlen. lia.
  - rewrite Heq. simpl. eexists. split; [ reflexivity | ]. simpl.
    repeat split; [ exact Hlb | exact Hss | ].
    intros w r. unfold clusterBackend_ServeHTTP. simpl. rewrite Hlb. reflexivity.
Qed.

Lemma C9_nil_loadBalancer_panics_witness :
  exists cb,
    fst (Build ctl_Parse api_builder New) = Return (Cluster cb) /\
    loadBalancer cb = None /\
    List.length (servers cb) = 2%nat /\
    forall w r, Backend_ServeHTTP (Cluster cb) w r = Panic nil_dereference.
Proof.
  apply (C9_nil_loadBalancer_panics ctl_Parse api_builder New).
  - simpl. apply le_n.
  - reflexivity.
  - repeat constructor; eexists; reflexivity.
Defined.

(** C6, as the code has it: building a backend from an empty server list,
    or from a list with a URL that [url.Parse] rejects, fails at once, inside
    the call of [Build], by a panic ([Build] has no error result); the proxy
    is left as it was, so no backend enters the registry. [ToURL], which
    goes through [createSimpleBackend], panics in the same way on a URL that
    does not parse and adds no route. *)
Theorem C6_bad_configuration_panics
    (parse : url_Parser) (bb : defaultBackendBuilder) (p : defaultProxy) :
  bb_servers bb = [] \/ (exists s e, s ∈ bb_servers bb /\ parse s = inr e) ->
  (exists msg, Build parse bb p = (Panic msg, p)) /\
  (forall rb urlStr e, parse urlStr = inr e ->
     ToURL parse rb urlStr p = (Panic ("invalid URL: " +:+ e), p)).
Proof.
  intros Hbad. split.
  - unfold Build. destruct Hbad as [-> | (s & e & Hin & Hs)].
    + eexists. reflexivity.
    + destruct (bb_servers bb) as [|a [|a' rest]] eqn:Hurls.
      * apply elem_of_nil in Hin. destruct Hin.
      * apply list_elem_of_singleton in Hin as ->. rewrite Hs. eexists. reflexivity.
      * destruct (Build_servers_bad parse _ s e Hin Hs []) as [msg ->].
        eexists. reflexivity.
  - intros rb urlStr e He. unfold ToURL, createSimpleBackend. rewrite He. reflexivity.
Qed.

Lemma C6_bad_configuration_panics_witness :
  (exists msg, Build ctl_Parse (defaultProxy_Backend "api") New = (Panic msg, New)) /\
  (forall rb urlStr e, ctl_Parse urlStr = inr e ->
     ToURL ctl_Parse rb urlStr New = (Panic ("invalid URL: " +:+ e), New)).
Proof.
  apply (C6_bad_configuration_panics ctl_Parse (defaultProxy_Backend "api") New).
  left. reflexivity.
Defined.

(** C6 as stated fails: [Build] on a builder without servers does not give
    an error back to its caller, it panics. *)
Lemma C6_empty_server_list_is_a_panic :
  bb_servers (defaultProxy_Backend "api") = [] /\
  Build ctl_Parse (defaultProxy_Backend "api") New
  = (Panic "no servers defined for backend", New).
Proof. split; reflexivity. Qed.

Example Build_malformed_second_URL :
  Build ctl_Parse
    (AddServers (defaultProxy_Backend "api")
       ["http://s1:8080"; String (ascii_of_nat 10) "http://s2:8080"]) New
  = (Panic "invalid server URL: net/url: invalid control character in URL", New).
Proof. reflexivity. Qed.

(** ** Reported health *)

Lemma HealthStatus_loop_snoc (now : nat -> Z) (ss : list Server) (x : Server) :
  forall i status,
    HealthStatus_loop now i (ss ++ [x]) status
    = <[ server_key x := entry_of x (now (i + List.length ss)%nat) ]>
        (HealthStatus_loop now i ss status).
Proof.
  induction ss as [|s ss IH]; intros i status; simpl.
  - rewrite Nat.add_0_r. reflexivity.
  - rewrite IH. replace (S i + List.length ss)%nat with (i + S (List.length ss))%nat by lia.
    reflexivity.
Qed.

Lemma HealthStatus_dom (now : nat -> Z) (ss : list Server) :
  dom (HealthStatus_loop now 0 ss ∅) = list_to_set (server_key <$> ss).
Proof.
  induction ss as [|x ss IH] using rev_ind.
  - simpl. apply dom_empty_L.
  - rewrite HealthStatus_loop_snoc, dom_insert_L, IH, fmap_app, list_to_set_app_L.
    simpl. rewrite union_empty_r_L. apply (comm_L _).
Qed.

Lemma HealthStatus_last_wins (now : nat -> Z) (ss : list Server) (k : string)
    (st : HealthStatus) :
  HealthStatus_loop now 0 ss ∅ !! k = Some st ->
  exists pre s post,
    ss = pre ++ s :: post /\ server_key s = k /\
    (k ∉ (server_key <$> post)) /\ hs_Healthy st = Healthy s.
Proof.
  revert st. induction ss as [|x ss IH] using rev_ind; intros st.
  - simpl. rewrite lookup_empty. discriminate.
  - rewrite HealthStatus_loop_snoc. destruct (decide (server_key x = k)) as [Hk|Hk].
    + rewrite Hk, lookup_insert_eq. intros Hst. injection Hst as <-.
      exists ss, x, []. repeat split; [ exact Hk | simpl; apply not_elem_of_nil ].
    + rewrite lookup_insert_ne by exact Hk. intros Hst.
      destruct (IH st Hst) as (pre & s & post & -> & Hs & Hpost & Hh).
      exists pre, s, (post ++ [x]). rewrite <- app_assoc. simpl.
      repeat split; [ exact Hs | | exact Hh ].
      rewrite fmap_app. apply not_elem_of_app. split; [ exact Hpost | ].
      simpl. intros Hin. apply list_elem_of_singleton in Hin. congruence.
Qed.

Lemma NoDup_keys_unique (ss : list Server) (a b : Server) :
  NoDup (server_key <$> ss) -> a ∈ ss -> b ∈ ss -> server_key a = server_key b -> a = b.
Proof.
  intros Hnd Ha Hb Hk.
  apply list_elem_of_lookup in Ha as [i Hi]. apply list_elem_of_lookup in Hb as [j Hj].
  assert (Hi' : (server_key <$> ss) !! i = Some (server_key a))
    by (rewrite list_lookup_fmap, Hi; reflexivity).
  assert (Hj' : (server_key <$> ss) !! j = Some (server_key a))
    by (rewrite list_lookup_fmap, Hj, Hk; reflexivity).
  assert (i = j) by (eapply NoDup_lookup; eauto). subst j. congruence.
Qed.

(** C10, as the code has it: every server made by [Build] for a cluster
    starts with its flag set. The map of [HealthStatus] is keyed by URL
    string: its keys are the URL strings of the servers, one entry for each
    distinct string, and an entry carries the flag of the last server of the
    list with that URL string. When the URL strings of the servers are
    pairwise distinct there is one entry for each server, with that server's
    flag. *)
Theorem C10_health_status_by_URL
    (parse : url_Parser) (bb : defaultBackendBuilder) (p : defaultProxy)
    (b : clusterBackend) (now : nat -> Z) (cb : clusterBackend) :
  fst (Build parse bb p) = Return (Cluster b) ->
  Forall (fun s => Healthy s = true) (servers b) /\
  dom (clusterBackend_HealthStatus now cb) = list_to_set (server_key <$> servers cb) /\
  (forall k st, clusterBackend_HealthStatus now cb !! k = Some st ->
     exists pre s post,
       servers cb = pre ++ s :: post /\ server_key s = k /\
       (k ∉ (server_key <$> post)) /\ hs_Healthy st = Healthy s) /\
  (NoDup (server_key <$> servers cb) ->
     size (clusterBackend_HealthStatus now cb) = List.length (servers cb) /\
     forall s, s ∈ servers cb ->
       exists st, clusterBackend_HealthStatus now cb !! server_key s = Some st /\
                  hs_Healthy st = Healthy s).
Proof.
  intros Hbuild. split; [ | split; [ | split ] ].
  - unfold Build in Hbuild. destruct (bb_servers bb) as [|a [|a' rest]] eqn:Hurls.
    + discriminate.
    + destruct (parse a); discriminate.
    + destruct (Build_servers parse (a :: a' :: rest) []) as [ss|msg] eqn:Hss;
        [ | discriminate ].
      simpl in Hbuild. injection Hbuild as <-. simpl.
      apply (Build_servers_healthy parse _ _ _ Hss). constructor.
  - apply HealthStatus_dom.
  - intros k st. apply HealthStatus_last_wins.
  - intros Hnd. unfold clusterBackend_HealthStatus. split.
    + rewrite <- size_dom, HealthStatus_dom, size_list_to_set by exact Hnd.
      apply length_fmap.
    + intros s Hs.
      assert (Hin : server_key s ∈ dom (HealthStatus_loop now 0 (servers cb) ∅)).
      { rewrite HealthStatus_dom. apply elem_of_list_to_set.
        apply list_elem_of_fmap. exists s. auto. }
      apply elem_of_dom in Hin as [st Hst]. exists st. split; [ exact Hst | ].
      destruct (HealthStatus_last_wins now _ _ _ Hst) as (pre & s' & post & Heq & Hk & _ & Hh).
      assert (s' = s); [ | congruence ].
      apply (NoDup_keys_unique (servers cb)); auto.
      rewrite Heq. apply elem_of_app. right. apply elem_of_cons. left. reflexivity.
Qed.

Lemma C10_health_status_by_URL_witness :
  Forall (fun s => Healthy s = true)
    [ {| URL := mkURL "http://s1:8080"; Healthy := true |};
      {| URL := mkURL "http://s2:8080"; Healthy := true |} ] /\
  size (clusterBackend_HealthStatus sampleClock (cluster_of [s1; s2] pickFirst)) = 2%nat.
Proof.
  destruct (C10_health_status_by_URL ctl_Parse api_builder New
              {| cb_name := "api";
                 servers := [ {| URL := mkURL "http://s1:8080"; Healthy := true |};
                              {| URL := mkURL "http://s2:8080"; Healthy := true |} ];
                 loadBalancer := None; healthCheck := None |}
              sampleClock (cluster_of [s1; s2] pickFirst) eq_refl)
    as (Hall & _ & _ & Hdistinct).
  split; [ exact Hall | ].
  apply Hdistinct. simpl.
  repeat constructor; rewrite ?elem_of_cons, ?elem_of_nil; intros H;
    repeat destruct H as [H|H]; try discriminate; destruct H.
Defined.

(** C10 as stated fails: two servers configured with the same URL share one
    entry of the map, and the entry carries the flag of the later one. *)
Lemma C10_same_URL_one_entry :
  (exists cb, fst (Build ctl_Parse twin_builder New) = Return (Cluster cb) /\
     List.length (servers cb) = 2%nat /\
     size (clusterBackend_HealthStatus sampleClock cb) = 1%nat) /\
  hs_Healthy <$>
    (clusterBackend_HealthStatus sampleClock
       (cluster_of [ {| URL := mkURL "http://a:1"; Healthy := false |};
                     {| URL := mkURL "http://a:1"; Healthy := true |} ] pickFirst)
     !! "http://a:1") = Some true.
Proof.
  split.
  - eexists. split; [ reflexivity | ]. split; [ reflexivity | ]. vm_compute. reflexivity.
  - vm_compute. reflexivity.
Qed.

(** C7: the code has no health state machine. A backend built with a health
    check keeps the path and the interval in its [healthChecker] and nothing
    else; no function of the proxy probes a server or writes a server's
    flag. Whatever the probes of a server would answer, the reported health
    of the servers of the built backend is the flag that [Build] set. *)
Lemma C7_reported_health_stays_as_built :
  exists cb,
    fst (Build ctl_Parse monitored_builder New) = Return (Cluster cb) /\
    healthCheck cb = Some {| hc_path := "/health"; hc_interval := 5 |} /\
    servers cb = [ {| URL := mkURL "http://s1:8080"; Healthy := true |};
                   {| URL := mkURL "http://s2:8080"; Healthy := true |} ] /\
    forall now k st,
      clusterBackend_HealthStatus now cb !! k = Some st -> hs_Healthy st = true.
Proof.
  eexists. split; [ reflexivity | ]. split; [ reflexivity | ]. split; [ reflexivity | ].
  intros now k st Hst.
  destruct (HealthStatus_last_wins now _ _ _ Hst) as (pre & s & post & Heq & _ & _ & ->).
  assert (Hin : s ∈ [ {| URL := mkURL "http://s1:8080"; Healthy := true |};
                      {| URL := mkURL "http://s2:8080"; Healthy := true |} ]).
  { simpl in Heq. rewrite Heq. apply elem_of_app. right. apply elem_of_cons. left. reflexivity. }
  rewrite !elem_of_cons, elem_of_nil in Hin.
  destruct Hin as [-> | [-> | []]]; reflexivity.
Qed.

(** ** The middleware chain *)

Lemma apply_middlewares_take (mws : list Middleware) (n : nat) :
  (n <= List.length mws)%nat ->
  forall h, apply_middlewares mws n h = chain (take n mws) h.
Proof.
  induction n as [|i IH]; intros Hn h.
  - reflexivity.
  - cbn [apply_middlewares]. unfold Middleware in *.
    destruct (lookup_lt_is_Some_2 mws i) as [mw Hmw]; [ lia | ].
    rewrite Hmw, IH by lia. rewrite (take_S_r _ _ _ Hmw).
    unfold chain. rewrite foldr_app. reflexivity.
Qed.

Lemma apply_middlewares_chain (mws : list Middleware) (h : Handler) :
  apply_middlewares mws (List.length mws) h = chain mws h.
Proof. rewrite apply_middlewares_take by lia. rewrite firstn_all. reflexivity. Qed.

(** The handler registered for a route nests the global middlewares, first
    one outermost, around the route's middlewares, around the target. *)
Lemma route_handler_chain (globals : list Middleware) (route : Route) :
  route_handler globals route
  = chain (globals ++ middlewares route) (route_target route).
Proof.
  unfold route_handler. rewrite !apply_middlewares_chain.
  unfold chain. rewrite foldr_app. reflexivity.
Qed.

Lemma chain_tracing (labels : list string) (h : Handler) (r : Request) :
  forall w,
    Handler_ServeHTTP (chain (tracing <$> labels) h) w r
    = (w' ← Handler_ServeHTTP h (w ++ (Entered <$> labels)) r;
       Return (w' ++ (Exited <$> reverse labels))).
Proof.
  induction labels as [|l ls IH]; intros w.
  - cbn [fmap list_fmap chain foldr reverse rev_append]. rewrite app_nil_r.
    destruct (Handler_ServeHTTP h w r) as [w'|msg]; cbn;
      [ rewrite app_nil_r | ]; reflexivity.
  - change (chain (tracing <$> l :: ls) h) with (tracing l (chain (tracing <$> ls) h)).
    unfold tracing at 1. cbn [Handler_ServeHTTP]. rewrite IH, <- app_assoc.
    rewrite reverse_cons, fmap_app.
    change ([Entered l] ++ (Entered <$> ls)) with (Entered <$> l :: ls).
    destruct (Handler_ServeHTTP h (w ++ (Entered <$> l :: ls)) r) as [w'|msg]; cbn.
    + rewrite app_assoc. reflexivity.
    + reflexivity.
Qed.

(** C4: with global middlewares G1..Gn and route middlewares R1..Rm that
    mark their entry and their exit, the handler built for the route marks
    the entries in the order G1,...,Gn,R1,...,Rm before the route's target
    runs, and the exits in the reverse order after it has returned. *)
Theorem C4_middleware_order
    (gs rs : list string) (pat : string) (b : option Backend) (h : Handler)
    (w : ResponseWriter) (r : Request) :
  let route := {| pattern := pat; backend := b;
                  middlewares := tracing <$> rs; handler := h |} in
  Handler_ServeHTTP (route_handler (tracing <$> gs) route) w r
  = (w' ← Handler_ServeHTTP (route_target route) (w ++ (Entered <$> (gs ++ rs))) r;
     Return (w' ++ (Exited <$> reverse (gs ++ rs)))).
Proof.
  intros route. rewrite route_handler_chain. subst route. simpl.
  rewrite <- fmap_app. apply chain_tracing.
Qed.

Example middleware_order_A_B_C_D :
  Handler_ServeHTTP
    (route_handler [tracing "A"; tracing "B"]
       {| pattern := "/api/"; backend := None;
          middlewares := [tracing "C"; tracing "D"];
          handler := Some (ReverseProxy_ServeHTTP (NewSingleHostReverseProxy (mkURL "http://x"))) |})
    [] (req "/api/users")
  = Return [Entered "A"; Entered "B"; Entered "C"; Entered "D"; Forwarded "http://x";
            Exited "D"; Exited "C"; Exited "B"; Exited "A"].
Proof. reflexivity. Qed.

(** ** The multiplexer *)






Lemma appendSorted_elem (es : list muxEntry) (e x : muxEntry) :
  x ∈ appendSorted es e <-> x = e \/ x ∈ es.
Proof.
  induction es as [|y es IH]; simpl.
  - rewrite list_elem_of_singleton, elem_of_nil. tauto.
  - destruct (String.length (me_pattern y) <? String.length (me_pattern e))%nat.
    + rewrite elem_of_cons. tauto.
    + rewrite !elem_of_cons, IH. tauto.
Qed.

Lemma appendSorted_sorted (es : list muxEntry) (e : muxEntry) :
  StronglySorted not_shorter es -> StronglySorted not_shorter (appendSorted es e).
Proof.
  induction 1 as [|y es Hs IH Hy]; simpl.
  - repeat constructor.
  - destruct (Nat.ltb_spec (String.length (me_pattern y)) (String.length (me_pattern e)))
      as [Hlt|Hge].
    + constructor; [ constructor; assumption | ].
      constructor; [ unfold not_shorter; lia | ].
      eapply Forall_impl; [ exact Hy | ]. unfold not_shorter. intros z Hz. cbn in Hz. lia.
    + constructor; [ exact IH | ].
      apply Forall_forall. intros z Hz. apply appendSorted_elem in Hz as [-> | Hz].
      * exact Hge.
      * rewrite Forall_forall in Hy. apply Hy. exact Hz.
Qed.

Lemma find_in_sorted (f : muxEntry -> bool) (es : list muxEntry) (e : muxEntry) :
  StronglySorted not_shorter es ->
  List.find f es = Some e ->
  e ∈ es /\ f e = true /\ forall e', e' ∈ es -> f e' = true -> not_shorter e e'.
Proof.
  induction 1 as [|y es Hs IH Hy]; simpl; [ discriminate | ].
  destruct (f y) eqn:Hfy.
  - intros Heq. injection Heq as <-. split; [ left | split; [ exact Hfy | ] ].
    intros e' He' _. apply elem_of_cons in He' as [-> | He'].
    + unfold not_shorter. lia.
    + rewrite Forall_forall in Hy. apply Hy. exact He'.
  - intros Hfind. destruct (IH Hfind) as (Hin & Hfe & Hmax).
    split; [ right; exact Hin | split; [ exact Hfe | ] ].
    intros e' He' Hfe'. apply elem_of_cons in He' as [-> | He'].
    + congruence.
    + apply Hmax; assumption.
Qed.


Lemma Handle_Return (mux mux' : ServeMux) (pat : string) (h : Handler) :
  ServeMux_Handle mux pat h = Return mux' ->
  pat <> "" /\ mux_m mux !! pat = None /\
  exists f, h = Some f /\
    mux' = {| mux_m := <[ pat := {| me_h := f; me_pattern := pat |} ]> (mux_m mux);
              mux_es := if last_is_slash pat
                        then appendSorted (mux_es mux) {| me_h := f; me_pattern := pat |}
                        else mux_es mux;
              mux_hosts := mux_hosts mux || negb (first_is_slash pat) |}.
Proof.
  unfold ServeMux_Handle. case_bool_decide as Hpat; [ discriminate | ].
  destruct h as [f|]; [ | discriminate ].
  destruct (mux_m mux !! pat) eqn:Hm; [ discriminate | ].
  intros Heq. injection Heq as <-. repeat split; eauto.
Qed.

Lemma loop_Return_fresh (globals : list Middleware) (rs : list Route) :
  forall mux mux',
    buildHandler_loop globals rs mux = Return mux' ->
    (forall r, r ∈ rs -> mux_m mux !! pattern r = None) /\ NoDup (pattern <$> rs).
Proof.
  induction rs as [|r rs IH]; intros mux mux' Hloop.
  - split; [ intros r Hr; apply elem_of_nil in Hr; destruct Hr | constructor ].
  - cbn [buildHandler_loop] in Hloop.
    destruct (ServeMux_Handle mux (pattern r) (route_handler globals r)) as [mux1|msg] eqn:Hh;
      [ | discriminate ].
    cbn in Hloop. destruct (IH _ _ Hloop) as [Hfresh Hnd].
    apply Handle_Return in Hh as (_ & Hnone & f & _ & ->). cbn in Hfresh.
    assert (Hdiff : forall r', r' ∈ rs -> pattern r <> pattern r').
    { intros r' Hr' Heq. specialize (Hfresh r' Hr').
      rewrite <- Heq, lookup_insert_eq in Hfresh. discriminate. }
    split.
    + intros r' Hr'. apply elem_of_cons in Hr' as [-> | Hr']; [ exact Hnone | ].
      specialize (Hfresh r' Hr'). rewrite lookup_insert_ne in Hfresh by auto. exact Hfresh.
    + rewrite fmap_cons. constructor; [ | exact Hnd ].
      intros Hin. apply list_elem_of_fmap in Hin as (r' & Heq & Hr'). eapply Hdiff; eauto.
Qed.

(** A table in which two routes carry the same pattern cannot be built:
    [buildHandler] panics. *)
Lemma buildHandler_duplicate_panics (p : defaultProxy) :
  ~ NoDup (pattern <$> routes p) -> exists msg, buildHandler p = Panic msg.
Proof.
  intros Hdup. unfold buildHandler.
  destruct (buildHandler_loop (p_middlewares p) (routes p) NewServeMux) as [mux|msg] eqn:Hloop.
  - apply loop_Return_fresh in Hloop as [_ Hnd]. contradiction.
  - eexists. reflexivity.
Qed.

Lemma NewServeMux_built (globals : list Middleware) : mux_built globals [] NewServeMux.
Proof.
  split; simpl.
  - intros pat e H. rewrite lookup_empty in H. discriminate.
  - intros r Hr. apply elem_of_nil in Hr. destruct Hr.
  - intros e. rewrite elem_of_nil, lookup_empty. split; [ tauto | intros [H _]; discriminate ].
  - constructor.
  - reflexivity.
Qed.

Lemma Handle_built (globals : list Middleware) (done : list Route) (r : Route)
    (mux mux' : ServeMux) :
  mux_built globals done mux ->
  ServeMux_Handle mux (pattern r) (route_handler globals r) = Return mux' ->
  mux_built globals (done ++ [r]) mux'.
Proof.
  intros [Hent Hroutes Hsub Hsorted Hhosts] Hh.
  apply Handle_Return in Hh as (_ & Hnone & f & Hf & ->).
  set (e0 := {| me_h := f; me_pattern := pattern r |}).
  assert (Hother : forall e, e ∈ mux_es mux -> me_pattern e <> pattern r).
  { intros e He Heq. apply Hsub in He as [He _]. rewrite Heq, Hnone in He. discriminate. }
  split; cbn [mux_m mux_es mux_hosts].
  - intros pat e. destruct (decide (pattern r = pat)) as [<- | Hne].
    + rewrite lookup_insert_eq. intros Heq. injection Heq as <-.
      split; [ reflexivity | ]. exists r. repeat split; [ | exact Hf ].
      apply elem_of_app. right. apply list_elem_of_singleton. reflexivity.
    + rewrite lookup_insert_ne by exact Hne. intros He.
      destruct (Hent pat e He) as (Hp & r0 & Hr0 & Hpat & Hh0).
      split; [ exact Hp | ]. exists r0. repeat split; auto.
      apply elem_of_app. left. exact Hr0.
  - intros r' Hr'. apply elem_of_app in Hr' as [Hr' | Hr'].
    + destruct (decide (pattern r = pattern r')) as [<- | Hne].
      * rewrite lookup_insert_eq. eauto.
      * rewrite lookup_insert_ne by exact Hne. apply Hroutes. exact Hr'.
    + apply list_elem_of_singleton in Hr' as ->. rewrite lookup_insert_eq. eauto.
  - intros e.
    assert (Hold : e ∈ mux_es mux <->
              <[pattern r := e0]> (mux_m mux) !! me_pattern e = Some e /\
              last_is_slash (me_pattern e) = true /\ me_pattern e <> pattern r).
    { rewrite Hsub. split.
      - intros [Hm Hs]. assert (me_pattern e <> pattern r) by (intros Heq; congruence).
        rewrite lookup_insert_ne by auto. auto.
      - intros (Hm & Hs & Hne). rewrite lookup_insert_ne in Hm by auto. auto. }
    assert (Hnew : e = e0 <->
              <[pattern r := e0]> (mux_m mux) !! me_pattern e = Some e /\
              me_pattern e = pattern r).
    { split.
      - intros ->. cbn. rewrite lookup_insert_eq. auto.
      - intros [Hm Heq]. rewrite Heq, lookup_insert_eq in Hm. congruence. }
    destruct (last_is_slash (pattern r)) eqn:Hslash.
    + rewrite appendSorted_elem, Hold, Hnew. split.
      * intros [[Hm Heq] | (Hm & Hs & _)]; [ | auto ]. split; [ exact Hm | congruence ].
      * intros [Hm Hs]. destruct (decide (me_pattern e = pattern r)); auto.
    + rewrite Hold. split.
      * intros (Hm & Hs & _). auto.
      * intros [Hm Hs]. repeat split; auto. intros Heq. congruence.
  - destruct (last_is_slash (pattern r)); [ apply appendSorted_sorted | ]; exact Hsorted.
  - rewrite existsb_app, Hhosts. simpl. rewrite orb_false_r. reflexivity.
Qed.

Lemma loop_built (globals : list Middleware) (rs : list Route) :
  forall done mux mux',
    mux_built globals done mux ->
    buildHandler_loop globals rs mux = Return mux' ->
    mux_built globals (done ++ rs) mux'.
Proof.
  induction rs as [|r rs IH]; intros done mux mux' Hb Hloop.
  - injection Hloop as <-. rewrite app_nil_r. exact Hb.
  - cbn [buildHandler_loop] in Hloop.
    destruct (ServeMux_Handle mux (pattern r) (route_handler globals r)) as [mux1|msg] eqn:Hh;
      [ | discriminate ].
    cbn in Hloop. replace (done ++ r :: rs) with ((done ++ [r]) ++ rs)
      by (rewrite <- app_assoc; reflexivity).
    eapply IH; [ | exact Hloop ]. eapply Handle_built; eauto.
Qed.

Lemma buildHandler_built (p : defaultProxy) (mux : ServeMux) :
  buildHandler p = Return mux -> mux_built (p_middlewares p) (routes p) mux.
Proof.
  intros Hb. apply (loop_built _ _ [] NewServeMux mux); [ apply NewServeMux_built | exact Hb ].
Qed.

Lemma hostless_no_hosts (globals : list Middleware) (rs : list Route) (mux : ServeMux) :
  mux_built globals rs mux ->
  Forall (fun r => first_is_slash (pattern r) = true) rs ->
  mux_hosts mux = false.
Proof.
  intros Hb Hall. rewrite (built_hosts _ _ _ Hb). clear Hb.
  induction Hall as [|r rs Hr _ IH]; simpl; [ reflexivity | ].
  rewrite Hr. exact IH.
Qed.


Lemma match_none (globals : list Middleware) (rs : list Route) (mux : ServeMux)
    (path : string) :
  mux_built globals rs mux ->
  (forall r, r ∈ rs -> pattern_matches (pattern r) path = false) ->
  ServeMux_match mux path = None.
Proof.
  intros Hb Hnone. unfold ServeMux_match.
  destruct (mux_m mux !! path) as [e|] eqn:Hm.
  - destruct (built_entries _ _ _ Hb path e Hm) as (_ & r & Hr & Hpat & _).
    specialize (Hnone r Hr). unfold pattern_matches in Hnone.
    rewrite Hpat, bool_decide_eq_true_2 in Hnone by reflexivity. discriminate.
  - destruct (List.find (fun e => String.prefix (me_pattern e) path) (mux_es mux))
      as [e|] eqn:Hfind; [ | reflexivity ].
    destruct (find_in_sorted _ _ _ (built_sorted _ _ _ Hb) Hfind) as (Hin & Hpre & _).
    apply (built_subtrees _ _ _ Hb) in Hin as [He Hs].
    destruct (built_entries _ _ _ Hb _ _ He) as (_ & r & Hr & Hpat & _).
    specialize (Hnone r Hr). unfold pattern_matches in Hnone.
    rewrite Hpat, Hs, Hpre, orb_true_r in Hnone. discriminate.
Qed.

(** ** Dispatch *)

Lemma ListenAndServe_Return (addr : string) (p p' : defaultProxy) :
  ListenAndServe addr p = (Return tt, p') ->
  exists mux,
    buildHandler p = Return mux /\
    p' = {| p_middlewares := p_middlewares p; routes := routes p; backends := backends p;
            server := Some {| Addr := addr; srv_Handler := mux |} |}.
Proof.
  unfold ListenAndServe. destruct (buildHandler p) as [mux|msg]; [ | discriminate ].
  intros Heq. injection Heq as <-. eauto.
Qed.


(** A request to whose path no pattern applies is answered by the
    not-found handler. *)
Lemma Handler_not_found (globals : list Middleware) (rs : list Route) (mux : ServeMux)
    (rq : Request) :
  mux_built globals rs mux ->
  Forall (fun r => first_is_slash (pattern r) = true) rs ->
  cleanPath (req_Path rq) = req_Path rq ->
  shouldRedirect mux (req_Host rq) (req_Path rq) = false ->
  (forall r, r ∈ rs -> pattern_matches (pattern r) (req_Path rq) = false) ->
  ServeMux_Handler mux rq = (NotFoundHandler, "").
Proof.
  intros Hb Hall Hclean Hred Hnone.
  unfold ServeMux_Handler, ServeMux_handler.
  rewrite Hclean, Hred, bool_decide_eq_true_2 by reflexivity.
  rewrite (hostless_no_hosts _ _ _ Hb Hall), (match_none _ _ _ _ Hb Hnone). reflexivity.
Qed.

Lemma plain_patterns_hostless (rs : list Route) :
  Forall (fun r => plain_pattern (pattern r) = true) rs ->
  Forall (fun r => first_is_slash (pattern r) = true) rs.
Proof.
  intros Hall. eapply Forall_impl; [ exact Hall | ]. intros r Hr. cbn in Hr.
  unfold plain_pattern in Hr.
  apply andb_true_iff in Hr as [Hr _]. apply andb_true_iff in Hr as [Hr _]. exact Hr.
Qed.

Lemma plain_request_clean (rq : Request) :
  plain_request rq = true -> cleanPath (req_Path rq) = req_Path rq.
Proof.
  unfold plain_request. intros H. apply andb_true_iff in H as [H _].
  apply bool_decide_eq_true in H. exact H.
Qed.

Lemma host_path_not_rooted (host path pat : string) :
  first_is_slash host = false -> first_is_slash pat = true ->
  pat <> path -> pat <> host +:+ path.
Proof.
  intros Hhost Hpat Hne Heq. destruct host as [|c host].
  - apply Hne. exact Heq.
  - rewrite Heq in Hpat. unfold first_is_slash in Hpat, Hhost. simpl in Hpat, Hhost.
    rewrite Hhost in Hpat. discriminate.
Qed.

Lemma plain_pattern_clean (pat : string) :
  plain_pattern pat = true -> cleanPath pat = pat.
Proof.
  unfold plain_pattern. intros H. apply andb_true_iff in H as [_ H].
  apply bool_decide_eq_true in H. exact H.
Qed.

(** C2, as the code has it: registering a route whose pattern is already in
    the table succeeds. [To] and [ToHandler] give the new route back and put
    it at the end of the table, behind the routes that were there, the one
    with the same pattern included. The duplicate is refused only when the
    handler is built: [buildHandler], and with it [ListenAndServe], panics
    on such a table. *)
Theorem C2_duplicate_pattern_is_appended
    (rb : defaultRouteBuilder) (b : option Backend) (h : Handler) (addr : string)
    (p : defaultProxy) (r0 : Route) :
  r0 ∈ routes p -> pattern r0 = rb_pattern rb ->
  (routes (snd (To rb b p)) = routes p ++ [fst (To rb b p)] /\
   pattern (fst (To rb b p)) = rb_pattern rb /\
   (exists msg, buildHandler (snd (To rb b p)) = Panic msg) /\
   (exists msg, ListenAndServe addr (snd (To rb b p)) = (Panic msg, snd (To rb b p)))) /\
  (routes (snd (ToHandler rb h p)) = routes p ++ [fst (ToHandler rb h p)] /\
   pattern (fst (ToHandler rb h p)) = rb_pattern rb /\
   (exists msg, buildHandler (snd (ToHandler rb h p)) = Panic msg)).
Proof.
  intros Hr0 Hpat.
  assert (Hdup : forall route, pattern route = rb_pattern rb ->
            ~ NoDup (pattern <$> (routes p ++ [route]))).
  { intros route Hroute Hnd. rewrite fmap_app in Hnd.
    apply NoDup_app in Hnd as (_ & Hdisj & _).
    apply (Hdisj (pattern r0)).
    - apply list_elem_of_fmap. exists r0. auto.
    - simpl. apply list_elem_of_singleton. congruence. }
  split.
  - assert (Hpanic : exists msg, buildHandler (snd (To rb b p)) = Panic msg).
    { apply buildHandler_duplicate_panics. simpl. apply Hdup. reflexivity. }
    repeat split; try reflexivity; [ exact Hpanic | ].
    destruct Hpanic as [msg Hmsg]. exists msg. unfold ListenAndServe. rewrite Hmsg. reflexivity.
  - repeat split; try reflexivity.
    apply buildHandler_duplicate_panics. simpl. apply Hdup. reflexivity.
Qed.

Lemma C2_duplicate_pattern_is_appended_witness :
  pattern <$> routes (snd (To (defaultProxy_Route "/api") (Some backendY)
                            (snd (To (defaultProxy_Route "/api") (Some backendX) New))))
  = ["/api"; "/api"] /\
  exists msg,
    buildHandler (snd (To (defaultProxy_Route "/api") (Some backendY)
                         (snd (To (defaultProxy_Route "/api") (Some backendX) New))))
    = Panic msg.
Proof.
  destruct (C2_duplicate_pattern_is_appended
              (defaultProxy_Route "/api") (Some backendY) None ":3000"
              (snd (To (defaultProxy_Route "/api") (Some backendX) New))
              (fst (To (defaultProxy_Route "/api") (Some backendX) New)))
    as [(Hroutes & _ & Hpanic & _) _].
  - simpl. left.
  - reflexivity.
  - split; [ rewrite Hroutes; reflexivity | exact Hpanic ].
Defined.

(** C2 as stated fails: the second registration of [/api] is accepted, and
    the table has changed: it now holds two routes with that pattern. *)
Lemma C2_duplicate_pattern_accepted :
  pattern <$> routes (snd (To (defaultProxy_Route "/api") (Some backendX) New)) = ["/api"] /\
  pattern <$> routes (snd (To (defaultProxy_Route "/api") (Some backendY)
                            (snd (To (defaultProxy_Route "/api") (Some backendX) New))))
  = ["/api"; "/api"] /\
  routes (snd (To (defaultProxy_Route "/api") (Some backendY)
                 (snd (To (defaultProxy_Route "/api") (Some backendX) New))))
  <> routes (snd (To (defaultProxy_Route "/api") (Some backendX) New)).
Proof.
  split; [ reflexivity | split; [ reflexivity | ] ]. simpl. discriminate.
Qed.

(** C3: with the patterns [/api] and [/api/users] registered, the server
    starts, and a request for [/api/users/123] or for [/api/status] is
    answered by the not-found handler with status 404: a pattern without a
    trailing slash applies to its own path only. The two routes are reached
    by the paths [/api] and [/api/users] alone. *)
Lemma C3_prefix_patterns_not_found :
  ListenAndServe ":3000" api_proxy = (Return tt, api_server) /\
  dispatch api_server (req "/api/users/123") = Some (NotFoundHandler, "") /\
  dispatch api_server (req "/api/status") = Some (NotFoundHandler, "") /\
  NotFoundHandler [] (req "/api/users/123") = Return [Replied 404 "404 page not found"] /\
  dispatch api_server (req "/api/users") = Some (Backend_ServeHTTP backendY, "/api/users") /\
  dispatch api_server (req "/api") = Some (Backend_ServeHTTP backendX, "/api").
Proof. repeat split; vm_compute; reflexivity. Qed.

Example subtree_patterns_longest_match :
  dispatch subtree_server (req "/api/users/123") = Some (Backend_ServeHTTP backendY, "/api/users/") /\
  dispatch subtree_server (req "/api/status") = Some (Backend_ServeHTTP backendX, "/api/") /\
  dispatch subtree_server (req "/api") = Some (RedirectHandler "/api/", "/api/") /\
  dispatch subtree_server (req "/api//status") = Some (RedirectHandler "/api/status", "/api/").
Proof. repeat split; vm_compute; reflexivity. Qed.




(** * Further properties of the builders, the chain and dispatch *)

(** ** Building backends *)

Lemma Build_servers_Forall2 (parse : url_Parser) (urls : list string) :
  forall acc ss,
    Build_servers parse urls acc = Return ss ->
    exists new,
      ss = acc ++ new /\
      Forall2 (fun url s => parse url = inl (URL s) /\ Healthy s = true) urls new.
Proof.
  induction urls as [|url urls IH]; simpl; intros acc ss Hb.
  - injection Hb as <-. exists []. rewrite app_nil_r. split; [ reflexivity | constructor ].
  - destruct (parse url) as [u|e] eqn:Hp; [ | discriminate ].
    destruct (IH _ _ Hb) as (new & -> & Hall).
    exists ({| URL := u; Healthy := true |} :: new). rewrite <- app_assoc. simpl.
    split; [ reflexivity | ]. constructor; [ | exact Hall ]. simpl. auto.
Qed.

Lemma Build_servers_first_bad (parse : url_Parser) (good : list string)
    (bad : string) (rest : list string) (e : string) :
  Forall (fun s => exists u, parse s = inl u) good ->
  parse bad = inr e ->
  forall acc, Build_servers parse (good ++ bad :: rest) acc
              = Panic ("invalid server URL: " +:+ e).
Proof.
  induction 1 as [|url good [u Hu] _ IH]; intros Hbad acc; simpl.
  - rewrite Hbad. reflexivity.
  - rewrite Hu. apply IH. exact Hbad.
Qed.

(** A builder with at least one server URL, all of whose URLs parse, builds:
    [Build] returns a backend and enters it in the registry under the
    builder's name, in place of any backend that had that name; the other
    names, the routes, the middlewares and the server are left alone. *)
Theorem Build_returns_and_registers
    (parse : url_Parser) (bb : defaultBackendBuilder) (p : defaultProxy) :
  bb_servers bb <> [] ->
  Forall (fun s => exists u, parse s = inl u) (bb_servers bb) ->
  exists b,
    fst (Build parse bb p) = Return b /\
    backends (snd (Build parse bb p)) !! bb_name bb = Some b /\
    (forall n, n <> bb_name bb ->
       backends (snd (Build parse bb p)) !! n = backends p !! n) /\
    routes (snd (Build parse bb p)) = routes p /\
    p_middlewares (snd (Build parse bb p)) = p_middlewares p /\
    server (snd (Build parse bb p)) = server p.
Proof.
  intros Hne Hparse. unfold Build.
  destruct (Build_servers_ok parse (bb_servers bb) Hparse []) as (ss & Heq & _ & _).
  destruct (bb_servers bb) as [|a [|a' rest]] eqn:Hurls.
  - contradiction.
  - apply Forall_inv in Hparse as [u Hu]. rewrite Hu. eexists. cbn.
    split; [ reflexivity | ]. split; [ apply lookup_insert_eq | ].
    split; [ | auto ]. intros n Hn. apply lookup_insert_ne. auto.
  - rewrite Heq. eexists. cbn.
    split; [ reflexivity | ]. split; [ apply lookup_insert_eq | ].
    split; [ | auto ]. intros n Hn. apply lookup_insert_ne. auto.
Qed.

Lemma Build_returns_and_registers_witness :
  exists b,
    fst (Build ctl_Parse api_builder New) = Return b /\
    backends (snd (Build ctl_Parse api_builder New)) !! "api" = Some b.
Proof.
  destruct (Build_returns_and_registers ctl_Parse api_builder New)
    as (b & Hb & Hreg & _).
  - discriminate.
  - repeat constructor; eexists; reflexivity.
  - exists b. split; [ exact Hb | exact Hreg ].
Defined.

(** A builder with exactly one server URL builds a simple backend, whatever
    load balancer and health check were set on it: every request is
    forwarded to that URL, and the reported health is one entry under the
    URL's string, healthy. *)
Theorem Build_single_server_is_simple
    (parse : url_Parser) (bb : defaultBackendBuilder) (p : defaultProxy)
    (url : string) (u : url_URL) :
  bb_servers bb = [url] -> parse url = inl u ->
  exists sb,
    fst (Build parse bb p) = Return (Simple sb) /\
    sb_name sb = bb_name bb /\ sb_url sb = u /\
    (forall w r, Backend_ServeHTTP (Simple sb) w r
                 = Return (w ++ [Forwarded (URL_String u)])) /\
    (forall now, Backend_HealthStatus now (Simple sb)
                 = {[ URL_String u := {| hs_Healthy := true; hs_LastCheck := now 0%nat;
                                         hs_Error := None |} ]}).
Proof.
  intros Hurls Hu. unfold Build. rewrite Hurls, Hu. eexists. cbn.
  repeat split; reflexivity.
Qed.

Lemma Build_single_server_is_simple_witness :
  exists sb,
    fst (Build ctl_Parse
           (WithHealthCheck
              (WithLoadBalancer (AddServers (defaultProxy_Backend "one") ["http://s1:8080"])
                 (Some pickFirst)) "/health" 5) New) = Return (Simple sb) /\
    forall w r, Backend_ServeHTTP (Simple sb) w r = Return (w ++ [Forwarded "http://s1:8080"]).
Proof.
  destruct (Build_single_server_is_simple ctl_Parse
              (WithHealthCheck
                 (WithLoadBalancer (AddServers (defaultProxy_Backend "one") ["http://s1:8080"])
                    (Some pickFirst)) "/health" 5)
              New "http://s1:8080" (mkURL "http://s1:8080") eq_refl eq_refl)
    as (sb & Hb & _ & _ & Hserve & _).
  exists sb. split; [ exact Hb | exact Hserve ].
Defined.

Lemma Build_Cluster_inv
    (parse : url_Parser) (bb : defaultBackendBuilder) (p : defaultProxy)
    (cb : clusterBackend) :
  fst (Build parse bb p) = Return (Cluster cb) ->
  Forall2 (fun url s => parse url = inl (URL s) /\ Healthy s = true)
    (bb_servers bb) (servers cb) /\
  (2 <= List.length (servers cb))%nat /\
  cb_name cb = bb_name bb /\
  loadBalancer cb = bb_loadBalancer bb /\
  healthCheck cb = (if bool_decide (bb_healthPath bb = "") then None
                    else Some {| hc_path := bb_healthPath bb;
                                 hc_interval := bb_healthInterval bb |}).
Proof.
  unfold Build. destruct (bb_servers bb) as [|a [|a' rest]] eqn:Hurls.
  - discriminate.
  - destruct (parse a); discriminate.
  - destruct (Build_servers parse (a :: a' :: rest) []) as [ss|msg] eqn:Hss;
      [ | discriminate ].
    cbn. intros Heq. injection Heq as <-. cbn.
    apply Build_servers_Forall2 in Hss as (new & -> & Hall). cbn.
    split; [ exact Hall | ]. split; [ | auto ].
    apply Forall2_length in Hall. rewrite <- Hall. simpl. lia.
Qed.

(** The cluster that [Build] returns has one server for each configured
    URL, in the order of configuration, each with the parsed URL and marked
    healthy; it carries the builder's name and load balancer, and a health
    checker with the builder's path and interval exactly when the path is
    not empty. *)
Theorem Build_cluster_follows_builder
    (parse : url_Parser) (bb : defaultBackendBuilder) (p : defaultProxy)
    (cb : clusterBackend) :
  fst (Build parse bb p) = Return (Cluster cb) ->
  Forall2 (fun url s => parse url = inl (URL s) /\ Healthy s = true)
    (bb_servers bb) (servers cb) /\
  (2 <= List.length (servers cb))%nat /\
  cb_name cb = bb_name bb /\
  loadBalancer cb = bb_loadBalancer bb /\
  healthCheck cb = (if bool_decide (bb_healthPath bb = "") then None
                    else Some {| hc_path := bb_healthPath bb;
                                 hc_interval := bb_healthInterval bb |}).
Proof. apply Build_Cluster_inv. Qed.

Lemma Build_cluster_follows_builder_witness :
  Forall2 (fun url s => ctl_Parse url = inl (URL s) /\ Healthy s = true)
    ["http://s1:8080"; "http://s2:8080"]
    [ {| URL := mkURL "http://s1:8080"; Healthy := true |};
      {| URL := mkURL "http://s2:8080"; Healthy := true |} ].
Proof.
  exact (proj1 (Build_cluster_follows_builder ctl_Parse monitored_builder New
                  {| cb_name := "api";
                     servers := [ {| URL := mkURL "http://s1:8080"; Healthy := true |};
                                  {| URL := mkURL "http://s2:8080"; Healthy := true |} ];
                     loadBalancer := Some firstHealthy;
                     healthCheck := Some {| hc_path := "/health"; hc_interval := 5 |} |}
                  eq_refl)).
Defined.

(** [Build] stops at the first URL that does not parse: when the URLs before
    it parse, the panic carries the parser's error for that URL, and the
    proxy is left as it was. *)
Theorem Build_panics_on_first_bad_URL
    (parse : url_Parser) (bb : defaultBackendBuilder) (p : defaultProxy)
    (good : list string) (bad : string) (rest : list string) (e : string) :
  bb_servers bb = good ++ bad :: rest ->
  Forall (fun s => exists u, parse s = inl u) good ->
  parse bad = inr e ->
  Build parse bb p = (Panic ("invalid server URL: " +:+ e), p).
Proof.
  intros Hurls Hgood Hbad. unfold Build.
  pose proof (Build_servers_first_bad parse good bad rest e Hgood Hbad []) as Hpanic.
  rewrite Hurls. clear Hurls.
  destruct good as [|g [|g' good]]; [ destruct rest as [|r rest] | | ]; cbn in *.
  - rewrite Hbad. reflexivity.
  - rewrite Hbad in *. reflexivity.
  - apply Forall_inv in Hgood as [u Hu]. rewrite Hu, Hbad in *. reflexivity.
  - rewrite Hpanic. reflexivity.
Qed.

Lemma Build_panics_on_first_bad_URL_witness :
  Build ctl_Parse
    (AddServers (defaultProxy_Backend "api")
       ["http://s1:8080"; String (ascii_of_nat 10) "http://s2:8080"; "http://s3:8080"]) New
  = (Panic "invalid server URL: net/url: invalid control character in URL", New).
Proof.
  apply (Build_panics_on_first_bad_URL ctl_Parse _ New
           ["http://s1:8080"] (String (ascii_of_nat 10) "http://s2:8080") ["http://s3:8080"]).
  - reflexivity.
  - repeat constructor. eexists. reflexivity.
  - reflexivity.
Defined.

(** ** Reported health of a built backend *)

Lemma HealthStatus_entry (now : nat -> Z) (ss : list Server) (k : string)
    (st : HealthStatus) :
  HealthStatus_loop now 0 ss ∅ !! k = Some st ->
  exists i s, ss !! i = Some s /\ server_key s = k /\ st = entry_of s (now i).
Proof.
  revert st. induction ss as [|x ss IH] using rev_ind; intros st.
  - simpl. rewrite lookup_empty. discriminate.
  - rewrite HealthStatus_loop_snoc. destruct (decide (server_key x = k)) as [Hk|Hk].
    + rewrite Hk, lookup_insert_eq. intros Hst. injection Hst as <-.
      exists (List.length ss), x. split; [ | auto ].
      rewrite lookup_app_r by lia. rewrite Nat.sub_diag. reflexivity.
    + rewrite lookup_insert_ne by exact Hk. intros Hst.
      destruct (IH st Hst) as (i & s & Hi & Hs & Hst').
      exists i, s. split; [ | auto ]. apply lookup_app_l_Some. exact Hi.
Qed.

(** A backend fresh from [Build] reports every configured server, and
    reports it healthy and without error: the keys of its health map are the
    printed forms of the parsed URLs of the builder, and no entry is
    unhealthy. This holds for the simple and for the cluster backend. *)
Theorem built_backend_reports_all_healthy
    (parse : url_Parser) (bb : defaultBackendBuilder) (p : defaultProxy)
    (b : Backend) (now : nat -> Z) :
  fst (Build parse bb p) = Return b ->
  (forall (k : string) st, Backend_HealthStatus now b !! k = Some st ->
     hs_Healthy st = true /\ hs_Error st = None /\
     exists url u, url ∈ bb_servers bb /\ parse url = inl u /\ URL_String u = k) /\
  (forall url, url ∈ bb_servers bb ->
     exists u, parse url = inl u /\ is_Some (Backend_HealthStatus now b !! URL_String u)).
Proof.
  intros Hbuild. destruct b as [sb|cb].
  - unfold Build in Hbuild. destruct (bb_servers bb) as [|a [|a' rest]] eqn:Hurls.
    + discriminate.
    + destruct (parse a) as [u|e] eqn:Hu; [ | discriminate ].
      cbn in Hbuild. injection Hbuild as <-. cbn. unfold simpleBackend_HealthStatus. cbn.
      split.
      * intros k st Hst. apply lookup_singleton_Some in Hst as [<- <-].
        repeat split. exists a, u. repeat split; [ left | exact Hu ].
      * intros url Hin. apply list_elem_of_singleton in Hin as ->.
        exists u. split; [ exact Hu | ]. rewrite lookup_singleton_eq. eauto.
    + destruct (Build_servers parse (a :: a' :: rest) []); discriminate.
  - destruct (Build_Cluster_inv parse bb p cb Hbuild) as (Hall & _).
    cbn. unfold clusterBackend_HealthStatus. split.
    + intros k st Hst. apply HealthStatus_entry in Hst as (i & s & Hi & Hk & ->).
      destruct (Forall2_lookup_r _ _ _ _ _ Hall Hi) as (url & Hurl & Hp & Hh).
      cbn. repeat split; [ exact Hh | ].
      exists url, (URL s). repeat split; [ | exact Hp | exact Hk ].
      apply list_elem_of_lookup. eauto.
    + intros url Hin. apply list_elem_of_lookup in Hin as [i Hi].
      destruct (Forall2_lookup_l _ _ _ _ _ Hall Hi) as (s & Hs & Hp & _).
      exists (URL s). split; [ exact Hp | ].
      apply elem_of_dom. rewrite HealthStatus_dom. apply elem_of_list_to_set.
      apply list_elem_of_fmap. exists s. split; [ reflexivity | ].
      apply list_elem_of_lookup. eauto.
Qed.

Lemma built_backend_reports_all_healthy_witness :
  exists u, ctl_Parse "http://s2:8080" = inl u /\
    is_Some (Backend_HealthStatus sampleClock
               (Cluster {| cb_name := "api";
                  servers := [ {| URL := mkURL "http://s1:8080"; Healthy := true |};
                               {| URL := mkURL "http://s2:8080"; Healthy := true |} ];
                  loadBalancer := None; healthCheck := None |})
             !! URL_String u).
Proof.
  refine (proj2 (built_backend_reports_all_healthy ctl_Parse api_builder New _ sampleClock
                   eq_refl) "http://s2:8080" _).
  cbn. right. left.
Defined.

(** ** One request on a cluster *)

(** [clusterBackend.ServeHTTP] writes one thing or nothing: when it returns,
    it has added exactly one event to what was written before, and that
    event is either the 503 reply, after [Select] reported an error, or the
    forwarding to the very server that [Select] returned without error. It
    never forwards once [Select] has reported an error, even if [Select]
    returned a server along with it. *)
Theorem ServeHTTP_one_event
    (b : clusterBackend) (w w' : ResponseWriter) (r : Request) :
  clusterBackend_ServeHTTP b w r = Return w' ->
  exists lb, loadBalancer b = Some lb /\
    ((snd (Select lb (servers b) r) <> None /\
      w' = w ++ [Replied 503 "No available backend"]) \/
     (exists s, Select lb (servers b) r = (Some s, None) /\
      w' = w ++ [Forwarded (server_key s)])).
Proof.
  unfold clusterBackend_ServeHTTP.
  destruct (loadBalancer b) as [lb|]; [ | discriminate ].
  intros H. exists lb. split; [ reflexivity | ].
  destruct (Select lb (servers b) r) as [[s|] [e|]]; cbn in *.
  - left. injection H as <-. split; [ discriminate | reflexivity ].
  - right. injection H as <-. exists s. split; reflexivity.
  - left. injection H as <-. split; [ discriminate | reflexivity ].
  - discriminate.
Qed.

Lemma ServeHTTP_one_event_witness :
  exists lb, loadBalancer (cluster_of [s1; s2] firstHealthy) = Some lb /\
    ((snd (Select lb [s1; s2] (req "/api")) <> None /\
      [Forwarded "http://s2:8080"] = [] ++ [Replied 503 "No available backend"]) \/
     (exists s, Select lb [s1; s2] (req "/api") = (Some s, None) /\
      [Forwarded "http://s2:8080"] = [] ++ [Forwarded (server_key s)])).
Proof.
  apply (ServeHTTP_one_event (cluster_of [s1; s2] firstHealthy) []
           [Forwarded "http://s2:8080"] (req "/api")).
  reflexivity.
Defined.

(** ** Routes to a URL *)

(** [ToURL] with a URL that parses registers a route like [To] does, at the
    end of the table, for a simple backend with an empty name that forwards
    every request to that URL. Unlike [Build], it does not enter the
    backend in the registry. *)
Theorem ToURL_registers_forwarding_route
    (parse : url_Parser) (rb : defaultRouteBuilder) (urlStr : string) (u : url_URL)
    (p : defaultProxy) :
  parse urlStr = inl u ->
  exists route,
    ToURL parse rb urlStr p = (Return route, add_route p route) /\
    pattern route = rb_pattern rb /\
    middlewares route = rb_middlewares rb /\
    backend route = Some (Simple {| sb_name := ""; sb_url := u;
                                    sb_proxy := NewSingleHostReverseProxy u |}) /\
    (forall w r, Handler_ServeHTTP (route_target route) w r
                 = Return (w ++ [Forwarded (URL_String u)])) /\
    routes (snd (ToURL parse rb urlStr p)) = routes p ++ [route] /\
    backends (snd (ToURL parse rb urlStr p)) = backends p.
Proof.
  intros Hu. unfold ToURL, createSimpleBackend. rewrite Hu. cbn.
  eexists. repeat split; reflexivity.
Qed.

Lemma ToURL_registers_forwarding_route_witness :
  exists route,
    ToURL ctl_Parse (defaultProxy_Route "/api/") "http://backend:8080" New
    = (Return route, add_route New route) /\
    forall w r, Handler_ServeHTTP (route_target route) w r
                = Return (w ++ [Forwarded "http://backend:8080"]).
Proof.
  destruct (ToURL_registers_forwarding_route ctl_Parse (defaultProxy_Route "/api/")
              "http://backend:8080" (mkURL "http://backend:8080") New eq_refl)
    as (route & Heq & _ & _ & _ & Hserve & _).
  exists route. split; [ exact Heq | exact Hserve ].
Defined.

(** ** Composition of middlewares *)

Lemma chain_app (a b : list Middleware) (h : Handler) :
  chain (a ++ b) h = chain a (chain b h).
Proof. unfold chain. apply foldr_app. Qed.

(** Middlewares accumulate in the order of the [Use] calls, on the proxy and
    on the route builder alike, and the handler built for a route nests the
    global ones, first one outermost, around the route's ones, around the
    backend. The global middlewares are taken when the handler is built: one
    added after the route was registered wraps the route as well. *)
Theorem Use_calls_accumulate
    (p : defaultProxy) (gs1 gs2 : list Middleware) (pat : string)
    (rs1 rs2 : list Middleware) (b : option Backend) :
  let rb := defaultRouteBuilder_Use (defaultRouteBuilder_Use (defaultProxy_Route pat) rs1) rs2 in
  let route := fst (To rb b (defaultProxy_Use p gs1)) in
  let p' := defaultProxy_Use (snd (To rb b (defaultProxy_Use p gs1))) gs2 in
  routes p' = routes p ++ [route] /\
  p' = snd (To rb b (defaultProxy_Use (defaultProxy_Use p gs1) gs2)) /\
  route_handler (p_middlewares p') route
  = chain (p_middlewares p ++ gs1 ++ gs2 ++ rs1 ++ rs2) (Backend_ServeHTTP <$> b).
Proof.
  intros rb route p'. subst rb route p'.
  split; [ reflexivity | ]. split; [ reflexivity | ].
  rewrite route_handler_chain. cbn. rewrite <- !app_assoc.
  destruct b; reflexivity.
Qed.

(** A middleware that answers without calling the next handler cuts the
    chain: with such a global middleware behind the global middlewares
    [outer], a request passes the entries of [outer], gets that answer, and
    passes the exits of [outer] in reverse; whatever global middlewares come
    later, whatever the route's middlewares and its target are, none of
    them runs. *)
Theorem deny_cuts_the_chain
    (outer : list string) (code : Z) (body : string) (later : list Middleware)
    (route : Route) (w : ResponseWriter) (r : Request) :
  Handler_ServeHTTP
    (route_handler ((tracing <$> outer) ++ deny code body :: later) route) w r
  = Return (w ++ (Entered <$> outer) ++ [Replied code body] ++ (Exited <$> reverse outer)).
Proof.
  rewrite route_handler_chain, <- app_assoc, chain_app.
  change (chain ((deny code body :: later) ++ middlewares route) (route_target route))
    with (deny code body (chain (later ++ middlewares route) (route_target route))).
  unfold deny at 1. rewrite chain_tracing. cbn. unfold http_Error.
  rewrite <- !app_assoc. reflexivity.
Qed.

(** ** When the handler can be built *)

Lemma Handle_fresh (mux : ServeMux) (pat : string) (f : HandlerFunc) :
  pat <> "" -> mux_m mux !! pat = None ->
  ServeMux_Handle mux pat (Some f)
  = Return {| mux_m := <[ pat := {| me_h := f; me_pattern := pat |} ]> (mux_m mux);
              mux_es := if last_is_slash pat
                        then appendSorted (mux_es mux) {| me_h := f; me_pattern := pat |}
                        else mux_es mux;
              mux_hosts := mux_hosts mux || negb (first_is_slash pat) |}.
Proof.
  intros Hpat Hnone. unfold ServeMux_Handle.
  rewrite bool_decide_eq_false_2 by exact Hpat. rewrite Hnone. reflexivity.
Qed.

Lemma loop_Return_handlers (globals : list Middleware) (rs : list Route) :
  forall mux mux',
    buildHandler_loop globals rs mux = Return mux' ->
    forall r, r ∈ rs -> pattern r <> "" /\ is_Some (route_handler globals r).
Proof.
  induction rs as [|r0 rs IH]; intros mux mux' Hloop r Hr.
  - apply elem_of_nil in Hr. destruct Hr.
  - cbn [buildHandler_loop] in Hloop.
    destruct (ServeMux_Handle mux (pattern r0) (route_handler globals r0)) as [mux1|msg] eqn:Hh;
      [ | discriminate ].
    cbn in Hloop. apply elem_of_cons in Hr as [-> | Hr].
    + apply Handle_Return in Hh as (Hpat & _ & f & Hf & _). split; [ exact Hpat | eauto ].
    + eapply IH; eauto.
Qed.

Lemma loop_wellformed_Return (globals : list Middleware) (rs : list Route) :
  NoDup (pattern <$> rs) ->
  (forall r, r ∈ rs -> pattern r <> "" /\ is_Some (route_handler globals r)) ->
  forall mux, (forall r, r ∈ rs -> mux_m mux !! pattern r = None) ->
  exists mux', buildHandler_loop globals rs mux = Return mux'.
Proof.
  induction rs as [|r0 rs IH]; intros Hnd Hwf mux Hfresh.
  - eexists. reflexivity.
  - rewrite fmap_cons in Hnd. apply NoDup_cons in Hnd as [Hnotin Hnd].
    destruct (Hwf r0) as [Hpat [f Hf]]; [ left | ].
    cbn [buildHandler_loop]. rewrite Hf, Handle_fresh; [ | exact Hpat | apply Hfresh; left ].
    cbn. apply IH; [ exact Hnd | intros r Hr; apply Hwf; right; exact Hr | ].
    intros r Hr. cbn. rewrite lookup_insert_ne; [ apply Hfresh; right; exact Hr | ].
    intros Heq. apply Hnotin. apply list_elem_of_fmap. exists r. auto.
Qed.

(** [ListenAndServe] gets its handler built, and sets the server with it,
    whenever the patterns of the table are plain and pairwise distinct and
    no route is left with a nil handler chain. *)
Theorem well_formed_table_starts (addr : string) (p : defaultProxy) :
  NoDup (pattern <$> routes p) ->
  Forall (fun r => plain_pattern (pattern r) = true) (routes p) ->
  (forall r, r ∈ routes p -> is_Some (route_handler (p_middlewares p) r)) ->
  exists mux,
    buildHandler p = Return mux /\
    ListenAndServe addr p
    = (Return tt,
       {| p_middlewares := p_middlewares p; routes := routes p; backends := backends p;
          server := Some {| Addr := addr; srv_Handler := mux |} |}).
Proof.
  intros Hnd Hplain Hwf.
  destruct (loop_wellformed_Return (p_middlewares p) (routes p) Hnd) with (mux := NewServeMux)
    as [mux Hmux].
  - intros r Hr. split; [ | apply Hwf; exact Hr ].
    apply plain_patterns_hostless in Hplain. rewrite Forall_forall in Hplain.
    specialize (Hplain r Hr). intros Hempty. rewrite Hempty in Hplain. discriminate.
  - intros r _. apply lookup_empty.
  - exists mux. unfold ListenAndServe, buildHandler. rewrite Hmux. auto.
Qed.

Lemma well_formed_table_starts_witness :
  exists mux, buildHandler subtree_proxy = Return mux.
Proof.
  destruct (well_formed_table_starts ":3000" subtree_proxy) as (mux & Hmux & _).
  - cbn. repeat constructor; rewrite ?elem_of_cons, ?elem_of_nil; intros H;
      repeat destruct H as [H|H]; try discriminate; destruct H.
  - repeat constructor.
  - intros r Hr. cbn in Hr. rewrite !elem_of_cons, elem_of_nil in Hr.
    destruct Hr as [-> | [-> | []]]; eexists; reflexivity.
  - exists mux. exact Hmux.
Defined.

(** Conversely, a table whose handler was built has pairwise distinct,
    non-empty patterns and a handler chain for every route. *)
Theorem built_table_is_well_formed (p : defaultProxy) (mux : ServeMux) :
  buildHandler p = Return mux ->
  NoDup (pattern <$> routes p) /\
  forall r, r ∈ routes p ->
    pattern r <> "" /\ is_Some (route_handler (p_middlewares p) r).
Proof.
  intros Hb. split.
  - apply loop_Return_fresh in Hb. tauto.
  - apply (loop_Return_handlers _ _ _ _ Hb).
Qed.

Lemma built_table_is_well_formed_witness :
  NoDup (pattern <$> routes subtree_proxy).
Proof.
  destruct (buildHandler subtree_proxy) as [mux|msg] eqn:Hb.
  - exact (proj1 (built_table_is_well_formed subtree_proxy mux Hb)).
  - vm_compute in Hb. discriminate.
Defined.

(** A route registered with neither a handler nor a backend and without any
    middleware around it stops the server from starting: [ListenAndServe]
    panics and sets no server. The registration itself had succeeded. *)
Theorem route_without_target_panics_at_start
    (addr : string) (p : defaultProxy) (r : Route) :
  r ∈ routes p -> route_target r = None ->
  middlewares r = [] -> p_middlewares p = [] ->
  exists msg, ListenAndServe addr p = (Panic msg, p).
Proof.
  intros Hr Htarget Hmws Hglobals. unfold ListenAndServe.
  destruct (buildHandler p) as [mux|msg] eqn:Hb; [ | eauto ].
  destruct (loop_Return_handlers _ _ _ _ Hb r Hr) as [_ [f Hf]].
  rewrite route_handler_chain, Hglobals, Hmws, Htarget in Hf. discriminate.
Qed.

Lemma route_without_target_panics_at_start_witness :
  exists msg,
    ListenAndServe ":3000" (snd (To (defaultProxy_Route "/api") None New))
    = (Panic msg, snd (To (defaultProxy_Route "/api") None New)).
Proof.
  apply (route_without_target_panics_at_start ":3000" _
           (fst (To (defaultProxy_Route "/api") None New))).
  - cbn. left.
  - reflexivity.
  - reflexivity.
  - reflexivity.
Defined.

(** ** Requests at the running server *)

Lemma NoDup_pattern_unique (rs : list Route) (a b : Route) :
  NoDup (pattern <$> rs) -> a ∈ rs -> b ∈ rs -> pattern a = pattern b -> a = b.
Proof.
  intros Hnd Ha Hb Hpat.
  apply list_elem_of_lookup in Ha as [i Hi]. apply list_elem_of_lookup in Hb as [j Hj].
  assert (Hi' : (pattern <$> rs) !! i = Some (pattern a))
    by (rewrite list_lookup_fmap, Hi; reflexivity).
  assert (Hj' : (pattern <$> rs) !! j = Some (pattern a))
    by (rewrite list_lookup_fmap, Hj, Hpat; reflexivity).
  assert (i = j) by (eapply NoDup_lookup; eauto). subst j. congruence.
Qed.

Lemma Handler_exact (p : defaultProxy) (mux : ServeMux) (rq : Request) (r : Route) :
  buildHandler p = Return mux ->
  Forall (fun r => plain_pattern (pattern r) = true) (routes p) ->
  r ∈ routes p -> req_Path rq = pattern r ->
  exists h, route_handler (p_middlewares p) r = Some h /\
            ServeMux_Handler mux rq = (h, pattern r).
Proof.
  intros Hbuild Hall Hr Hpath.
  pose proof (buildHandler_built _ _ Hbuild) as Hb.
  assert (Hclean : cleanPath (req_Path rq) = req_Path rq).
  { rewrite Hpath. apply plain_pattern_clean.
    rewrite Forall_forall in Hall. apply Hall. exact Hr. }
  destruct (built_routes _ _ _ Hb r Hr) as [e He].
  destruct (built_entries _ _ _ Hb _ _ He) as (Hp & r0 & Hr0 & Hpat & Hh).
  assert (r0 = r) as ->.
  { apply loop_Return_fresh in Hbuild as [_ Hnd].
    apply (NoDup_pattern_unique (routes p)); assumption. }
  exists (me_h e). split; [ exact Hh | ].
  unfold ServeMux_Handler, shouldRedirect, ServeMux_handler, ServeMux_match.
  rewrite Hclean, Hpath, He. rewrite !bool_decide_eq_true_2 by eauto.
  rewrite (hostless_no_hosts _ _ _ Hb (plain_patterns_hostless _ Hall)), Hp. reflexivity.
Qed.

(** On a table of plain patterns, a request whose path is a registered
    pattern reaches the handler chain of the route with that pattern, and no
    other: no longer pattern and no redirect comes before an exact match. *)
Theorem exact_path_reaches_its_route
    (addr : string) (p p' : defaultProxy) (rq : Request) (r : Route) :
  ListenAndServe addr p = (Return tt, p') ->
  Forall (fun r => plain_pattern (pattern r) = true) (routes p) ->
  r ∈ routes p -> req_Path rq = pattern r ->
  exists h, route_handler (p_middlewares p) r = Some h /\
            dispatch p' rq = Some (h, pattern r) /\
            forall w, serve p' w rq = Some (h w rq).
Proof.
  intros Hstart Hall Hr Hpath.
  apply ListenAndServe_Return in Hstart as (mux & Hbuild & ->).
  destruct (Handler_exact p mux rq r Hbuild Hall Hr Hpath) as (h & Hh & Hdisp).
  exists h. unfold serve, dispatch. cbn. rewrite Hdisp. auto.
Qed.

Lemma exact_path_reaches_its_route_witness :
  exists h,
    route_handler [] {| pattern := "/api/"; backend := Some backendX;
                        middlewares := []; handler := None |} = Some h /\
    dispatch subtree_server (req "/api/") = Some (h, "/api/") /\
    forall w, serve subtree_server w (req "/api/") = Some (h w (req "/api/")).
Proof.
  apply (exact_path_reaches_its_route ":3000" subtree_proxy subtree_server (req "/api/")
           {| pattern := "/api/"; backend := Some backendX;
              middlewares := []; handler := None |}).
  - vm_compute. reflexivity.
  - repeat constructor.
  - cbn. left.
  - reflexivity.
Defined.

(** On a table of plain patterns, a request with a clean path to which no
    registered pattern applies, and which is not redirected to a subtree
    root, is answered by the not-found handler: [http.Error] with status 404
    and the text "404 page not found"; no route's handler or middleware
    runs. *)
Theorem unmatched_path_is_not_found
    (addr : string) (p p' : defaultProxy) (w : ResponseWriter) (rq : Request) :
  ListenAndServe addr p = (Return tt, p') ->
  Forall (fun r => plain_pattern (pattern r) = true) (routes p) ->
  plain_request rq = true ->
  redirects p' rq = false ->
  (forall r, r ∈ routes p -> pattern_matches (pattern r) (req_Path rq) = false) ->
  dispatch p' rq = Some (NotFoundHandler, "") /\
  serve p' w rq = Some (Return (w ++ [Replied 404 "404 page not found"])).
Proof.
  intros Hstart Hall Hclean Hred Hnone. apply plain_request_clean in Hclean.
  apply ListenAndServe_Return in Hstart as (mux & Hbuild & ->).
  unfold redirects in Hred. cbn in Hred. rewrite Hclean in Hred.
  pose proof (Handler_not_found _ _ _ rq (buildHandler_built _ _ Hbuild)
                (plain_patterns_hostless _ Hall) Hclean Hred Hnone) as Hdisp.
  unfold serve, dispatch. cbn. rewrite Hdisp. split; reflexivity.
Qed.

Lemma unmatched_path_is_not_found_witness :
  serve subtree_server [] (req "/other")
  = Some (Return [Replied 404 "404 page not found"]).
Proof.
  refine (proj2 (unmatched_path_is_not_found ":3000" subtree_proxy subtree_server []
                   (req "/other") _ _ _ _ _)).
  - vm_compute. reflexivity.
  - repeat constructor.
  - vm_compute. reflexivity.
  - vm_compute. reflexivity.
  - intros r Hr. cbn in Hr. rewrite !elem_of_cons, elem_of_nil in Hr.
    destruct Hr as [-> | [-> | []]]; vm_compute; reflexivity.
Defined.

(** A route registered for a subtree, with a pattern ending in a slash,
    makes the server redirect the subtree root written without the slash:
    on a table of plain patterns, when the path is clean and is itself no
    registered pattern, a request for it is answered with a redirect to the
    path with the slash added, and no route's handler runs. *)
Theorem subtree_root_is_redirected
    (addr : string) (p p' : defaultProxy) (w : ResponseWriter) (rq : Request) (r : Route) :
  ListenAndServe addr p = (Return tt, p') ->
  Forall (fun r => plain_pattern (pattern r) = true) (routes p) ->
  plain_request rq = true ->
  r ∈ routes p -> pattern r = req_Path rq +:+ "/" ->
  last_is_slash (req_Path rq) = false ->
  (forall r', r' ∈ routes p -> pattern r' <> req_Path rq) ->
  serve p' w rq = Some (Return (w ++ [Redirected (req_Path rq +:+ "/")])).
Proof.
  intros Hstart Hall Hplain Hr Hpat Hslash Hnotreg.
  assert (Hclean := plain_request_clean _ Hplain).
  assert (Hne : req_Path rq <> "").
  { intros Hempty. rewrite Hempty in Hclean. discriminate. }
  assert (Hother : forall r', r' ∈ routes p ->
            pattern r' <> req_Path rq /\ pattern r' <> req_Host rq +:+ req_Path rq).
  { intros r' Hr'. split; [ apply Hnotreg; exact Hr' | ].
    apply host_path_not_rooted; [ | | apply Hnotreg; exact Hr' ].
    - unfold plain_request in Hplain. apply andb_true_iff in Hplain as [_ Hh].
      apply negb_true_iff in Hh. exact Hh.
    - apply plain_patterns_hostless in Hall. rewrite Forall_forall in Hall.
      apply Hall. exact Hr'. }
  apply ListenAndServe_Return in Hstart as (mux & Hbuild & ->).
  pose proof (buildHandler_built _ _ Hbuild) as Hb.
  assert (Hfree : forall k, (forall r', r' ∈ routes p -> pattern r' <> k) ->
            mux_m mux !! k = None).
  { intros k Hk. destruct (mux_m mux !! k) as [e|] eqn:He; [ | reflexivity ].
    destruct (built_entries _ _ _ Hb _ _ He) as (_ & r0 & Hr0 & Hp0 & _).
    destruct (Hk r0 Hr0 Hp0). }
  assert (Hred : shouldRedirect mux (req_Host rq) (req_Path rq) = true).
  { unfold shouldRedirect.
    rewrite (Hfree (req_Path rq)) by (intros r' Hr'; apply Hother; exact Hr').
    rewrite (Hfree (req_Host rq +:+ req_Path rq)) by (intros r' Hr'; apply Hother; exact Hr').
    rewrite !(bool_decide_eq_false_2 (is_Some None)) by (intros [x Hx]; discriminate).
    rewrite bool_decide_eq_false_2.
    - rewrite bool_decide_eq_true_2; [ rewrite Hslash; reflexivity | ].
      rewrite <- Hpat. apply (built_routes _ _ _ Hb). exact Hr.
    - destruct (req_Path rq); [ contradiction | discriminate ]. }
  unfold serve, dispatch, ServeMux_Handler. cbn. rewrite Hclean, Hred. reflexivity.
Qed.

Lemma subtree_root_is_redirected_witness :
  serve subtree_server [] (req "/api") = Some (Return [Redirected "/api/"]).
Proof.
  apply (subtree_root_is_redirected ":3000" subtree_proxy subtree_server [] (req "/api")
           {| pattern := "/api/"; backend := Some backendX;
              middlewares := []; handler := None |}).
  - vm_compute. reflexivity.
  - repeat constructor.
  - vm_compute. reflexivity.
  - cbn. left.
  - reflexivity.
  - reflexivity.
  - intros r Hr. cbn in Hr. rewrite !elem_of_cons, elem_of_nil in Hr.
    destruct Hr as [-> | [-> | []]]; discriminate.
Defined.

(** End to end, on a table of plain patterns: with marking middlewares [gs]
    on the proxy and [rs] on a route, a request for the route's pattern is
    answered by the route's target between the entry marks of [gs] then
    [rs] and their exit marks in reverse. When the target panics, so does
    the request: nothing in the chain recovers, and no exit mark is
    written. *)
Theorem served_request_passes_the_chain
    (addr : string) (p p' : defaultProxy) (gs rs : list string)
    (w : ResponseWriter) (rq : Request) (r : Route) :
  ListenAndServe addr p = (Return tt, p') ->
  Forall (fun r => plain_pattern (pattern r) = true) (routes p) ->
  p_middlewares p = tracing <$> gs ->
  r ∈ routes p -> middlewares r = tracing <$> rs -> req_Path rq = pattern r ->
  serve p' w rq
  = Some (w' ← Handler_ServeHTTP (route_target r) (w ++ (Entered <$> (gs ++ rs))) rq;
          Return (w' ++ (Exited <$> reverse (gs ++ rs)))).
Proof.
  intros Hstart Hall Hgs Hr Hrs Hpath.
  apply ListenAndServe_Return in Hstart as (mux & Hbuild & ->).
  destruct (Handler_exact p mux rq r Hbuild Hall Hr Hpath) as (h & Hh & Hdisp).
  unfold serve, dispatch. cbn. rewrite Hdisp. f_equal.
  change (h w rq) with (Handler_ServeHTTP (Some h) w rq).
  rewrite <- Hh, route_handler_chain, Hgs, Hrs, <- fmap_app. apply chain_tracing.
Qed.

Lemma served_request_passes_the_chain_witness :
  serve (snd (ListenAndServe ":3000"
                (snd (To (defaultRouteBuilder_Use (defaultProxy_Route "/api/") [tracing "C"])
                        (Some backendX) (defaultProxy_Use New [tracing "A"; tracing "B"])))))
    [] (req "/api/")
  = Some (Return [Entered "A"; Entered "B"; Entered "C"; Forwarded "http://x:8080";
                  Exited "C"; Exited "B"; Exited "A"]).
Proof.
  apply (served_request_passes_the_chain ":3000"
           (snd (To (defaultRouteBuilder_Use (defaultProxy_Route "/api/") [tracing "C"])
                   (Some backendX) (defaultProxy_Use New [tracing "A"; tracing "B"])))
           _ ["A"; "B"] ["C"] [] (req "/api/")
           (fst (To (defaultRouteBuilder_Use (defaultProxy_Route "/api/") [tracing "C"])
                   (Some backendX) (defaultProxy_Use New [tracing "A"; tracing "B"])))).
  - vm_compute. reflexivity.
  - repeat constructor.
  - reflexivity.
  - cbn. left.
  - reflexivity.
  - reflexivity.
Defined.
